(** * models/deep_conv.py: the deep-convolutional Generator and Discriminator

    A shallow embedding of [GenBlock], [Generator], [DiscBlock] and
    [Discriminator].  Configuration values stay what they are in the Python
    source (mode names are strings, stage indices are naturals, labels are
    integers).  A tensor is its shape together with its flattened values.

    The layers that the module factory [MODULES], [ops.SelfAttention] and the
    tensor library provide are not part of this file of the repository.  Their
    shape rules are written out (a layer raises when the shape it receives does
    not fit its construction arguments); the numbers they compute come from an
    [engine] that is a variable of the development.  The engine reads the
    weights, may read and update an ambient state (random generator, running
    statistics, power-iteration vectors) and is told whether autocast is
    engaged. *)

From Stdlib Require Import List String ZArith Reals Lra Lia Bool Arith.
Import ListNotations.

Open Scope string_scope.
Open Scope list_scope.
Open Scope nat_scope.

(** ** Exceptions and results *)

Inductive exn : Type :=
| NotImplementedError
| RuntimeError
| IndexError
| TypeError
| AttributeError.

Inductive Res (A : Type) : Type :=
| Ok (a : A)
| Raise (e : exn).

Arguments Ok {A} a.
Arguments Raise {A} e.

Definition exn_eqb (a b : exn) : bool :=
  match a, b with
  | NotImplementedError, NotImplementedError => true
  | RuntimeError, RuntimeError => true
  | IndexError, IndexError => true
  | TypeError, TypeError => true
  | AttributeError, AttributeError => true
  | _, _ => false
  end.

(** ** Tensors *)

Record tensor : Type := mkTensor { shape : list nat; data : list R }.

Definition numel (s : list nat) : nat := fold_right Nat.mul 1 s.

(** Where a layer lives inside its network: an attribute of the network, or an
    attribute of the block stored at a position of [self.blocks]. *)
Inductive site : Type :=
| Top (field : string)
| Stage (pos : nat) (field : string).

Record Linear : Type := mkLinear
  { lin_site : site; in_features : nat; out_features : nat; bias : bool }.

Record Conv : Type := mkConv
  { conv_site : site; in_channels : nat; out_channels : nat;
    kernel_size : nat; stride : nat; padding : nat }.

Record BatchNorm : Type := mkBatchNorm { bn_site : site; bn_features : nat }.

Record CondBatchNorm : Type := mkCondBatchNorm
  { cbn_site : site; cbn_classes : nat; cbn_features : nat }.

Record Embedding : Type := mkEmbedding
  { emb_site : site; num_embeddings : nat; embedding_dim : nat }.

Record SelfAttention : Type := mkSelfAttention
  { attn_site : site; attn_channels : nat; is_generator : bool }.

(** One call into the tensor engine. *)
Inductive op : Type :=
| op_linear (m : Linear)
| op_conv2d (m : Conv)
| op_deconv2d (m : Conv)
| op_bn (m : BatchNorm)
| op_cbn (m : CondBatchNorm) (label : list Z)
| op_act (generator : bool)
| op_attn (m : SelfAttention)
| op_embedding (m : Embedding) (label : list Z)
| op_sum_hw
| op_mul
| op_sum1
| op_add
| op_normalize.

(** ** Shape rules of the layers *)

Definition linear_shape (m : Linear) (s : list nat) : Res (list nat) :=
  match rev s with
  | [] => Raise RuntimeError
  | k :: pre =>
      if k =? in_features m then Ok (rev (out_features m :: pre))
      else Raise RuntimeError
  end.

(** [nn.Conv2d] on a batched input: floor((n + 2p - k) / s) + 1 per axis. *)
Definition conv_out (m : Conv) (n : nat) : nat :=
  (n + 2 * padding m - kernel_size m) / stride m + 1.

Definition conv2d_shape (m : Conv) (s : list nat) : Res (list nat) :=
  match s with
  | [b; c; h; w] =>
      if (c =? in_channels m) && (1 <=? stride m)
         && (kernel_size m <=? h + 2 * padding m)
         && (kernel_size m <=? w + 2 * padding m)
      then Ok [b; out_channels m; conv_out m h; conv_out m w]
      else Raise RuntimeError
  | _ => Raise RuntimeError
  end.

(** [nn.ConvTranspose2d]: (n - 1) * s - 2p + k per axis. *)
Definition deconv_out (m : Conv) (n : nat) : nat :=
  (n - 1) * stride m + kernel_size m - 2 * padding m.

Definition deconv2d_shape (m : Conv) (s : list nat) : Res (list nat) :=
  match s with
  | [b; c; h; w] =>
      if (c =? in_channels m) && (1 <=? h) && (1 <=? w)
         && (2 * padding m <? (h - 1) * stride m + kernel_size m)
         && (2 * padding m <? (w - 1) * stride m + kernel_size m)
      then Ok [b; out_channels m; deconv_out m h; deconv_out m w]
      else Raise RuntimeError
  | _ => Raise RuntimeError
  end.

Definition bn_shape (features : nat) (s : list nat) : Res (list nat) :=
  match s with
  | [b; c; h; w] => if c =? features then Ok s else Raise RuntimeError
  | _ => Raise RuntimeError
  end.

Definition label_in_range (n : nat) (l : Z) : bool :=
  ((0 <=? l) && (l <? Z.of_nat n))%Z.

(** A table lookup raises on an index outside [0, rows). *)
Definition embedding_shape (m : Embedding) (label : list Z) : Res (list nat) :=
  if forallb (label_in_range (num_embeddings m)) label
  then Ok [List.length label; embedding_dim m]
  else Raise IndexError.

(** Modelled from the spec: class-conditional batch normalisation (section 4.1)
    looks the label up per sample and returns a feature map of the shape it
    received; one label per sample is expected. *)
Definition cbn_shape (m : CondBatchNorm) (label : list Z) (s : list nat)
  : Res (list nat) :=
  match s with
  | [b; c; h; w] =>
      if negb (forallb (label_in_range (cbn_classes m)) label)
      then Raise IndexError
      else if (c =? cbn_features m) && (List.length label =? b) then Ok s
      else Raise RuntimeError
  | _ => Raise RuntimeError
  end.

(** Modelled from the spec: self-attention (section 6) returns a feature map of
    the shape it received. *)
Definition attn_shape (m : SelfAttention) (s : list nat) : Res (list nat) :=
  match s with
  | [b; c; h; w] => if c =? attn_channels m then Ok s else Raise RuntimeError
  | _ => Raise RuntimeError
  end.

(** [torch.sum(h, dim=[2, 3])]. *)
Definition sum_hw_shape (s : list nat) : Res (list nat) :=
  match s with
  | b :: c :: _ :: _ :: rest => Ok (b :: c :: rest)
  | _ => Raise IndexError
  end.

(** [torch.sum(t, 1)]. *)
Definition sum1_shape (s : list nat) : Res (list nat) :=
  match s with
  | b :: _ :: rest => Ok (b :: rest)
  | _ => Raise IndexError
  end.

(** [F.normalize(t, dim=1)] keeps the shape and needs a second axis. *)
Definition normalize_shape (s : list nat) : Res (list nat) :=
  match s with
  | _ :: _ :: _ => Ok s
  | _ => Raise IndexError
  end.

(** Broadcasting of two shapes, compared from the last axis. *)
Fixpoint broadcast_rev (a b : list nat) : Res (list nat) :=
  match a, b with
  | [], _ => Ok b
  | _, [] => Ok a
  | x :: a', y :: b' =>
      match broadcast_rev a' b' with
      | Raise e => Raise e
      | Ok r =>
          if x =? y then Ok (x :: r)
          else if x =? 1 then Ok (y :: r)
          else if y =? 1 then Ok (x :: r)
          else Raise RuntimeError
      end
  end.

Definition broadcast_shape (a b : list nat) : Res (list nat) :=
  match broadcast_rev (rev a) (rev b) with
  | Ok r => Ok (rev r)
  | Raise e => Raise e
  end.

(** [torch.squeeze(t)] drops every axis of size one. *)
Definition squeeze_shape (s : list nat) : list nat :=
  filter (fun d => negb (d =? 1)) s.

Definition torch_squeeze (t : tensor) : tensor :=
  mkTensor (squeeze_shape (shape t)) (data t).

Definition torch_tanh (t : tensor) : tensor :=
  mkTensor (shape t) (map tanh (data t)).

(** ** Labels *)

(** [label * 2 + 1] and [label * 2] on an integer tensor. *)
Definition label_fake (label : list Z) : list Z :=
  map (fun l => (l * 2 + 1)%Z) label.

Definition label_real (label : list Z) : list Z :=
  map (fun l => (l * 2)%Z) label.

(** ** Configuration of the two networks *)

Record GenConfig : Type := mkGenConfig
  { z_dim : nat; g_shared_dim : nat; g_img_size : nat; g_conv_dim : nat;
    g_apply_attn : bool; attn_g_loc : list nat; g_cond_mtd : string;
    g_num_classes : nat; g_init : string; g_depth : nat;
    g_mixed_precision : bool }.

Record DiscConfig : Type := mkDiscConfig
  { d_img_size : nat; d_conv_dim : nat; apply_d_sn : bool;
    d_apply_attn : bool; attn_d_loc : list nat; d_cond_mtd : string;
    aux_cls_type : string; d_embed_dim : nat; normalize_d_embed : bool;
    d_num_classes : nat; d_init : string; d_depth : nat;
    d_mixed_precision : bool }.

(** ** Generator: construction *)

Inductive norm_layer : Type :=
| PlainBN (m : BatchNorm)
| ClassBN (m : CondBatchNorm).

Record GenBlock : Type := mkGenBlock
  { gb_g_cond_mtd : string; gb_deconv0 : Conv; gb_bn0 : norm_layer }.

Definition GenBlock_init (in_ch out_ch : nat) (cond_mtd : string)
  (classes : nat) (pos : nat) : Res GenBlock :=
  let deconv0 := mkConv (Stage pos "deconv0") in_ch out_ch 4 2 1 in
  if (cond_mtd =? "W/O")%string then
    Ok (mkGenBlock cond_mtd deconv0
          (PlainBN (mkBatchNorm (Stage pos "bn0") out_ch)))
  else if (cond_mtd =? "cBN")%string then
    Ok (mkGenBlock cond_mtd deconv0
          (ClassBN (mkCondBatchNorm (Stage pos "bn0") classes out_ch)))
  else Raise NotImplementedError.

(** An entry of [self.blocks]: what [isinstance] tells apart in [forward]. *)
Inductive gen_stage : Type :=
| GBlock (b : GenBlock)
| GAttn (a : SelfAttention).

Record Generator : Type := mkGenerator
  { in_dims : list nat; out_dims : list nat; G_z_dim : nat;
    G_num_classes : nat; G_mixed_precision : bool;
    linear0 : Linear; blocks : list (list gen_stage); conv4 : Conv }.

Definition mem_nat (n : nat) (l : list nat) : bool := existsb (Nat.eqb n) l.

(** The body of [for index in range(len(self.in_dims))], run over the indices
    still to visit; [acc] is [self.blocks] so far. *)
Fixpoint Generator_blocks (ins outs : list nat) (cfg : GenConfig)
  (indices : list nat) (acc : list (list gen_stage))
  : Res (list (list gen_stage)) :=
  match indices with
  | [] => Ok acc
  | index :: rest =>
      match GenBlock_init (nth index ins 0) (nth index outs 0)
              (g_cond_mtd cfg) (g_num_classes cfg) (List.length acc) with
      | Raise e => Raise e
      | Ok b =>
          let acc1 := acc ++ [[GBlock b]] in
          let acc2 :=
            if mem_nat (index + 1) (attn_g_loc cfg) && g_apply_attn cfg
            then acc1 ++ [[GAttn (mkSelfAttention
                                    (Stage (List.length acc1) "")
                                    (nth index outs 0) true)]]
            else acc1 in
          Generator_blocks ins outs cfg rest acc2
      end
  end.

Definition Generator_init (cfg : GenConfig) : Res Generator :=
  let ins := [512; 256; 128] in
  let outs := [256; 128; 64] in
  let lin0 := mkLinear (Top "linear0") (z_dim cfg) (nth 0 ins 0 * 4 * 4) true in
  match Generator_blocks ins outs cfg (seq 0 (List.length ins)) [] with
  | Raise e => Raise e
  | Ok bs =>
      Ok (mkGenerator ins outs (z_dim cfg) (g_num_classes cfg)
            (g_mixed_precision cfg) lin0 bs
            (mkConv (Top "conv4") (last outs 0) 3 3 1 1))
  end.

(** ** Discriminator: construction *)

Record DiscBlock : Type := mkDiscBlock
  { db_apply_d_sn : bool; db_conv0 : Conv; db_conv1 : Conv;
    db_bn0 : option BatchNorm; db_bn1 : option BatchNorm }.

Definition DiscBlock_init (in_ch out_ch : nat) (sn : bool) (pos : nat)
  : DiscBlock :=
  mkDiscBlock sn
    (mkConv (Stage pos "conv0") in_ch out_ch 3 1 1)
    (mkConv (Stage pos "conv1") out_ch out_ch 4 2 1)
    (if sn then None else Some (mkBatchNorm (Stage pos "bn0") out_ch))
    (if sn then None else Some (mkBatchNorm (Stage pos "bn1") out_ch)).

Inductive disc_stage : Type :=
| DBlock (b : DiscBlock)
| DAttn (a : SelfAttention).

Record Discriminator : Type := mkDiscriminator
  { D_in_dims : list nat; D_out_dims : list nat;
    D_apply_d_sn : bool; D_d_cond_mtd : string; D_aux_cls_type : string;
    D_normalize_d_embed : bool; D_num_classes : nat;
    D_mixed_precision : bool;
    D_blocks : list (list disc_stage);
    conv1 : Conv; bn1 : option BatchNorm;
    linear1 : Linear;
    linear2 : option Linear; embedding : option Embedding;
    linear_mi : option Linear; embedding_mi : option Embedding }.

Fixpoint Discriminator_blocks (ins outs : list nat) (cfg : DiscConfig)
  (indices : list nat) (acc : list (list disc_stage))
  : list (list disc_stage) :=
  match indices with
  | [] => acc
  | index :: rest =>
      let acc1 :=
        acc ++ [[DBlock (DiscBlock_init (nth index ins 0) (nth index outs 0)
                           (apply_d_sn cfg) (List.length acc))]] in
      let acc2 :=
        if mem_nat (index + 1) (attn_d_loc cfg) && d_apply_attn cfg
        then acc1 ++ [[DAttn (mkSelfAttention (Stage (List.length acc1) "")
                                (nth index outs 0) false)]]
        else acc1 in
      Discriminator_blocks ins outs cfg rest acc2
  end.

Definition is_2C_family (mtd : string) : bool :=
  (mtd =? "2C")%string || (mtd =? "D2DCE")%string.

Definition Discriminator_init (cfg : DiscConfig) : Res Discriminator :=
  let ins := [3] ++ [64; 128] in
  let outs := [64; 128; 256] in
  let mtd := d_cond_mtd cfg in
  let aux := aux_cls_type cfg in
  let bs := Discriminator_blocks ins outs cfg (seq 0 (List.length ins)) [] in
  let c1 := mkConv (Top "conv1") 256 512 3 1 1 in
  let b1 := if apply_d_sn cfg then None
            else Some (mkBatchNorm (Top "bn1") 512) in
  let num_classes := d_num_classes cfg in
  (* linear layer for adversarial training *)
  let lin1 :=
    if (mtd =? "MH")%string then mkLinear (Top "linear1") 512 (1 + num_classes) true
    else if (mtd =? "MD")%string then mkLinear (Top "linear1") 512 num_classes true
    else mkLinear (Top "linear1") 512 1 true in
  (* double num_classes for Auxiliary Discriminative Classifier *)
  let num_classes := if (aux =? "ADC")%string then num_classes * 2 else num_classes in
  (* linear and embedding layers for discriminator conditioning *)
  let '(lin2, emb) :=
    if (mtd =? "AC")%string then
      (Some (mkLinear (Top "linear2") (last outs 0) num_classes false), None)
    else if (mtd =? "PD")%string then
      (None, Some (mkEmbedding (Top "embedding") num_classes (last outs 0)))
    else if is_2C_family mtd then
      (Some (mkLinear (Top "linear2") (last outs 0) (d_embed_dim cfg) true),
       Some (mkEmbedding (Top "embedding") num_classes (d_embed_dim cfg)))
    else (None, None) in
  (* linear and embedding layers for evolved classifier-based GAN *)
  let build lmi emi :=
    Ok (mkDiscriminator ins outs (apply_d_sn cfg) mtd aux
          (normalize_d_embed cfg) (d_num_classes cfg) (d_mixed_precision cfg)
          bs c1 b1 lin1 lin2 emb lmi emi) in
  if (aux =? "TAC")%string then
    if (mtd =? "AC")%string then
      build (Some (mkLinear (Top "linear_mi") (last outs 0) num_classes false))
            None
    else if is_2C_family mtd then
      build (Some (mkLinear (Top "linear_mi") (last outs 0)
                     (d_embed_dim cfg) true))
            (Some (mkEmbedding (Top "embedding_mi") num_classes
                     (d_embed_dim cfg)))
    else Raise NotImplementedError
  else build None None.

(** ** Indexing with an index tensor per axis *)

(** An index below zero counts from the end of the axis. *)
Definition wrap_index (n : nat) (l : Z) : option nat :=
  if ((0 <=? l) && (l <? Z.of_nat n))%Z then Some (Z.to_nat l)
  else if ((- Z.of_nat n <=? l) && (l <? 0))%Z
       then Some (Z.to_nat (l + Z.of_nat n))
       else None.

(** The values of [t[idx, label]] for [idx = i, i + 1, ...]: row [idx], column
    [label], each a slice of [sz] values of a tensor with [d0] rows and [d1]
    columns. *)
Fixpoint gather_values (d0 d1 sz : nat) (dat : list R) (i : nat)
  (label : list Z) : Res (list R) :=
  match label with
  | [] => Ok []
  | l :: ls =>
      if i <? d0 then
        match wrap_index d1 l with
        | None => Raise IndexError
        | Some c =>
            match gather_values d0 d1 sz dat (S i) ls with
            | Raise e => Raise e
            | Ok r => Ok (firstn sz (skipn ((i * d1 + c) * sz) dat) ++ r)
            end
        end
      else Raise IndexError
  end.

(** [t[idx, label]] where [idx] is [range(label.size(0))]. *)
Definition index_by_label (t : tensor) (label : list Z) : Res tensor :=
  match shape t with
  | d0 :: d1 :: rest =>
      match gather_values d0 d1 (numel rest) (data t) 0 label with
      | Raise e => Raise e
      | Ok v => Ok (mkTensor (List.length label :: rest) v)
      end
  | _ => Raise IndexError
  end.

(** [t.view(-1, d1, ..., dn)]. *)
Definition view_rows (t : tensor) (dims : list nat) : Res tensor :=
  let n := numel (shape t) in
  let d := numel dims in
  if (1 <=? n) && (1 <=? d) && (n mod d =? 0)
  then Ok (mkTensor (n / d :: dims) (data t))
  else Raise RuntimeError.

(** ** The output bundle of the discriminator *)

Record DiscOutput : Type := mkDiscOutput
  { h : tensor; adv_output : tensor;
    embed : option tensor; proxy : option tensor; cls_output : option tensor;
    label : list Z;
    mi_embed : option tensor; mi_proxy : option tensor;
    mi_cls_output : option tensor }.

(** ** The forward passes *)

Section Forward.

(** The ambient state of the tensor engine and the stored weights. *)
Variable world : Type.
Variable Theta : Type.

(** [engine theta amp o args s w]: the values of the result of call [o] on
    [args], whose shape is [s], under weights [theta], with autocast engaged
    iff [amp], in ambient state [w]; and the ambient state afterwards. *)
Variable engine :
  Theta -> bool -> op -> list tensor -> list nat -> world -> list R * world.

(** The stored values of a named parameter of a linear layer. *)
Variable weights : Theta -> Linear -> string -> list R.

Variable theta : Theta.

Definition M (A : Type) : Type := world -> Res (A * world).

Definition ret {A : Type} (a : A) : M A := fun w => Ok (a, w).

Definition raise {A : Type} (e : exn) : M A := fun _ => Raise e.

Definition bind {A B : Type} (c : M A) (k : A -> M B) : M B :=
  fun w => match c w with
           | Raise e => Raise e
           | Ok (a, w') => k a w'
           end.

Definition lift {A : Type} (r : Res A) : M A :=
  fun w => match r with
           | Raise e => Raise e
           | Ok a => Ok (a, w)
           end.

Notation "x <- c ;; k" := (bind c (fun x => k))
  (at level 61, c at next level, right associativity).

(** One layer call: the shape rule decides whether it raises. *)
Definition call (amp : bool) (o : op) (args : list tensor)
  (s : Res (list nat)) : M tensor :=
  fun w => match s with
           | Raise e => Raise e
           | Ok sh => let (d, w') := engine theta amp o args sh w in
                      Ok (mkTensor sh d, w')
           end.

Definition linear (amp : bool) (m : Linear) (x : tensor) : M tensor :=
  call amp (op_linear m) [x] (linear_shape m (shape x)).

Definition conv2d (amp : bool) (m : Conv) (x : tensor) : M tensor :=
  call amp (op_conv2d m) [x] (conv2d_shape m (shape x)).

Definition deconv2d (amp : bool) (m : Conv) (x : tensor) : M tensor :=
  call amp (op_deconv2d m) [x] (deconv2d_shape m (shape x)).

Definition bn (amp : bool) (m : BatchNorm) (x : tensor) : M tensor :=
  call amp (op_bn m) [x] (bn_shape (bn_features m) (shape x)).

Definition cbn (amp : bool) (m : CondBatchNorm) (x : tensor) (lab : list Z)
  : M tensor :=
  call amp (op_cbn m lab) [x] (cbn_shape m lab (shape x)).

Definition activation (amp : bool) (generator : bool) (x : tensor) : M tensor :=
  call amp (op_act generator) [x] (Ok (shape x)).

Definition attention (amp : bool) (m : SelfAttention) (x : tensor) : M tensor :=
  call amp (op_attn m) [x] (attn_shape m (shape x)).

Definition embedding_lookup (amp : bool) (m : Embedding) (lab : list Z)
  : M tensor :=
  call amp (op_embedding m lab) [] (embedding_shape m lab).

Definition torch_sum_hw (amp : bool) (x : tensor) : M tensor :=
  call amp op_sum_hw [x] (sum_hw_shape (shape x)).

Definition torch_mul (amp : bool) (a b : tensor) : M tensor :=
  call amp op_mul [a; b] (broadcast_shape (shape a) (shape b)).

Definition torch_add (amp : bool) (a b : tensor) : M tensor :=
  call amp op_add [a; b] (broadcast_shape (shape a) (shape b)).

Definition torch_sum1 (amp : bool) (x : tensor) : M tensor :=
  call amp op_sum1 [x] (sum1_shape (shape x)).

Definition F_normalize (amp : bool) (x : tensor) : M tensor :=
  call amp op_normalize [x] (normalize_shape (shape x)).

(** [m.parameters()]: the weight matrix, then the bias when there is one. *)
Definition parameters (m : Linear) : list tensor :=
  mkTensor [out_features m; in_features m] (weights theta m "weight")
  :: (if bias m
      then [mkTensor [out_features m] (weights theta m "bias")]
      else []).

(** [for W in m.parameters(): W = F.normalize(W, dim=1)]: every pass binds
    the loop variable anew; the layer keeps its parameters. *)
Fixpoint normalize_each (amp : bool) (ps : list tensor) : M unit :=
  match ps with
  | [] => ret tt
  | W :: rest => _ <- F_normalize amp W ;; normalize_each amp rest
  end.

(** *** Generator *)

Definition norm_call (amp : bool) (n : norm_layer) (x : tensor)
  (lab : option (list Z)) : M tensor :=
  match n, lab with
  | PlainBN m, None => bn amp m x
  | ClassBN m, Some l => cbn amp m x l
  | _, _ => raise TypeError
  end.

Definition GenBlock_forward (amp : bool) (b : GenBlock) (x : tensor)
  (lab : list Z) : M tensor :=
  x <- deconv2d amp (gb_deconv0 b) x ;;
  x <- (if (gb_g_cond_mtd b =? "W/O")%string then norm_call amp (gb_bn0 b) x None
        else if (gb_g_cond_mtd b =? "cBN")%string
             then norm_call amp (gb_bn0 b) x (Some lab)
             else raise NotImplementedError) ;;
  activation amp true x.

Definition gen_stage_forward (amp : bool) (lab : list Z) (s : gen_stage)
  (act : tensor) : M tensor :=
  match s with
  | GAttn a => attention amp a act
  | GBlock b => GenBlock_forward amp b act lab
  end.

(** A loop that threads [act] through a list of stages. *)
Fixpoint run_stages {S : Type} (f : S -> tensor -> M tensor) (l : list S)
  (act : tensor) : M tensor :=
  match l with
  | [] => ret act
  | s :: rest => act' <- f s act ;; run_stages f rest act'
  end.

Definition Generator_forward (G : Generator) (z : tensor) (lab : list Z)
  (eval : bool) : M tensor :=
  let amp := G_mixed_precision G && negb eval in
  act <- linear amp (linear0 G) z ;;
  act <- lift (view_rows act [nth 0 (in_dims G) 0; 4; 4]) ;;
  act <- run_stages (fun blocklist =>
                       run_stages (gen_stage_forward amp lab) blocklist)
           (blocks G) act ;;
  act <- conv2d amp (conv4 G) act ;;
  ret (torch_tanh act).

(** *** Discriminator *)

Definition opt_bn (amp : bool) (m : option BatchNorm) (x : tensor) : M tensor :=
  match m with
  | Some m => bn amp m x
  | None => raise AttributeError
  end.

Definition DiscBlock_forward (amp : bool) (b : DiscBlock) (x : tensor)
  : M tensor :=
  x <- conv2d amp (db_conv0 b) x ;;
  x <- (if negb (db_apply_d_sn b) then opt_bn amp (db_bn0 b) x else ret x) ;;
  x <- activation amp false x ;;
  x <- conv2d amp (db_conv1 b) x ;;
  x <- (if negb (db_apply_d_sn b) then opt_bn amp (db_bn1 b) x else ret x) ;;
  activation amp false x.

Definition disc_stage_forward (amp : bool) (s : disc_stage) (x : tensor)
  : M tensor :=
  match s with
  | DBlock b => DiscBlock_forward amp b x
  | DAttn a => attention amp a x
  end.

(** Lines 189-197: the stages, the trailing convolution and the pooling. *)
Definition Discriminator_pool (amp : bool) (D : Discriminator) (x : tensor)
  : M tensor :=
  h <- run_stages (fun blocklist => run_stages (disc_stage_forward amp) blocklist)
         (D_blocks D) x ;;
  h <- conv2d amp (conv1 D) h ;;
  h <- (if negb (D_apply_d_sn D) then opt_bn amp (bn1 D) h else ret h) ;;
  h <- activation amp false h ;;
  torch_sum_hw amp h.

(** Line 200 before the squeeze: [self.linear1(h)]. *)
Definition Discriminator_adv_head (amp : bool) (D : Discriminator) (h : tensor)
  : M tensor :=
  linear amp (linear1 D) h.

(** Lines 203-207. *)
Definition adc_label (D : Discriminator) (adc_fake : bool) (lab : list Z)
  : list Z :=
  if (D_aux_cls_type D =? "ADC")%string then
    if adc_fake then label_fake lab else label_real lab
  else lab.

Definition opt_linear (amp : bool) (m : option Linear) (x : tensor) : M tensor :=
  match m with
  | Some m => linear amp m x
  | None => raise AttributeError
  end.

Definition opt_parameters (m : option Linear) : M (list tensor) :=
  match m with
  | Some m => ret (parameters m)
  | None => raise AttributeError
  end.

Definition opt_embedding (amp : bool) (m : option Embedding) (lab : list Z)
  : M tensor :=
  match m with
  | Some m => embedding_lookup amp m lab
  | None => raise AttributeError
  end.

(** What the class-conditioning branch leaves in the local variables
    [h], [adv_output], [embed], [proxy], [cls_output]. *)
Record cond_vars : Type := mkCondVars
  { cv_h : tensor; cv_adv_output : tensor; cv_embed : option tensor;
    cv_proxy : option tensor; cv_cls_output : option tensor }.

(** Lines 210-230. *)
Definition class_conditioning (amp : bool) (D : Discriminator) (h0 adv : tensor)
  (lab : list Z) : M cond_vars :=
  let mtd := D_d_cond_mtd D in
  if (mtd =? "AC")%string then
    h1 <- (if D_normalize_d_embed D then
             ps <- opt_parameters (linear2 D) ;;
             _ <- normalize_each amp ps ;;
             F_normalize amp h0
           else ret h0) ;;
    c <- opt_linear amp (linear2 D) h1 ;;
    ret (mkCondVars h1 adv None None (Some c))
  else if (mtd =? "PD")%string then
    e <- opt_embedding amp (embedding D) lab ;;
    p <- torch_mul amp e h0 ;;
    s <- torch_sum1 amp p ;;
    a <- torch_add amp adv s ;;
    ret (mkCondVars h0 a None None None)
  else if is_2C_family mtd then
    e <- opt_linear amp (linear2 D) h0 ;;
    p <- opt_embedding amp (embedding D) lab ;;
    if D_normalize_d_embed D then
      e' <- F_normalize amp e ;;
      p' <- F_normalize amp p ;;
      ret (mkCondVars h0 adv (Some e') (Some p') None)
    else ret (mkCondVars h0 adv (Some e) (Some p) None)
  else if (mtd =? "MD")%string then
    a <- lift (index_by_label adv lab) ;;
    ret (mkCondVars h0 a None None None)
  else if (mtd =? "W/O")%string || (mtd =? "MH")%string then
    ret (mkCondVars h0 adv None None None)
  else raise NotImplementedError.

Record mi_vars : Type := mkMiVars
  { mv_embed : option tensor; mv_proxy : option tensor;
    mv_cls_output : option tensor }.

(** Lines 233-244. *)
Definition twin_conditioning (amp : bool) (D : Discriminator) (h1 : tensor)
  (lab : list Z) : M mi_vars :=
  let mtd := D_d_cond_mtd D in
  if (D_aux_cls_type D =? "TAC")%string then
    if (mtd =? "AC")%string then
      _ <- (if D_normalize_d_embed D then
              ps <- opt_parameters (linear_mi D) ;;
              normalize_each amp ps
            else ret tt) ;;
      c <- opt_linear amp (linear_mi D) h1 ;;
      ret (mkMiVars None None (Some c))
    else if is_2C_family mtd then
      e <- opt_linear amp (linear_mi D) h1 ;;
      p <- opt_embedding amp (embedding_mi D) lab ;;
      if D_normalize_d_embed D then
        e' <- F_normalize amp e ;;
        p' <- F_normalize amp p ;;
        ret (mkMiVars (Some e') (Some p') None)
      else ret (mkMiVars (Some e) (Some p) None)
    else ret (mkMiVars None None None)
  else ret (mkMiVars None None None).

Definition Discriminator_forward (D : Discriminator) (x : tensor)
  (lab : list Z) (eval adc_fake : bool) : M DiscOutput :=
  let amp := D_mixed_precision D && negb eval in
  h0 <- Discriminator_pool amp D x ;;
  a <- Discriminator_adv_head amp D h0 ;;
  let adv := torch_squeeze a in
  let lab := adc_label D adc_fake lab in
  cv <- class_conditioning amp D h0 adv lab ;;
  mv <- twin_conditioning amp D (cv_h cv) lab ;;
  ret (mkDiscOutput (cv_h cv) (cv_adv_output cv) (cv_embed cv) (cv_proxy cv)
         (cv_cls_output cv) lab (mv_embed mv) (mv_proxy mv)
         (mv_cls_output mv)).

End Forward.

Arguments ret {world A} a.
Arguments raise {world A} e.
Arguments bind {world A B} c k.
Arguments lift {world A} r.
Arguments call {world Theta} engine theta amp o args s.
Arguments linear {world Theta} engine theta amp m x.
Arguments conv2d {world Theta} engine theta amp m x.
Arguments deconv2d {world Theta} engine theta amp m x.
Arguments bn {world Theta} engine theta amp m x.
Arguments cbn {world Theta} engine theta amp m x lab.
Arguments activation {world Theta} engine theta amp generator x.
Arguments attention {world Theta} engine theta amp m x.
Arguments embedding_lookup {world Theta} engine theta amp m lab.
Arguments torch_sum_hw {world Theta} engine theta amp x.
Arguments torch_mul {world Theta} engine theta amp a b.
Arguments torch_add {world Theta} engine theta amp a b.
Arguments torch_sum1 {world Theta} engine theta amp x.
Arguments F_normalize {world Theta} engine theta amp x.
Arguments parameters {Theta} weights theta m.
Arguments normalize_each {world Theta} engine theta amp ps.
Arguments norm_call {world Theta} engine theta amp n x lab.
Arguments GenBlock_forward {world Theta} engine theta amp b x lab.
Arguments gen_stage_forward {world Theta} engine theta amp lab s act.
Arguments run_stages {world S} f l act.
Arguments Generator_forward {world Theta} engine theta G z lab eval.
Arguments opt_bn {world Theta} engine theta amp m x.
Arguments DiscBlock_forward {world Theta} engine theta amp b x.
Arguments disc_stage_forward {world Theta} engine theta amp s x.
Arguments Discriminator_pool {world Theta} engine theta amp D x.
Arguments Discriminator_adv_head {world Theta} engine theta amp D h.
Arguments opt_linear {world Theta} engine theta amp m x.
Arguments opt_parameters {world Theta} weights theta m.
Arguments opt_embedding {world Theta} engine theta amp m lab.
Arguments class_conditioning {world Theta} engine weights theta amp D h0 adv lab.
Arguments twin_conditioning {world Theta} engine weights theta amp D h1 lab.
Arguments Discriminator_forward {world Theta} engine weights theta D x lab eval adc_fake.

(** ** A concrete engine

    An engine without ambient state whose layers all compute zeros, and one
    whose layers number the entries of their result 0, 1, 2, ...: enough to
    run the two networks on concrete shapes. *)

Definition zero_engine (_ : unit) (_ : bool) (_ : op) (_ : list tensor)
  (s : list nat) (w : unit) : list R * unit :=
  (repeat 0%R (numel s), w).

Definition ramp_engine (_ : unit) (_ : bool) (_ : op) (_ : list tensor)
  (s : list nat) (w : unit) : list R * unit :=
  (map INR (seq 0 (numel s)), w).

Definition zero_weights (_ : unit) (m : Linear) (name : string) : list R :=
  if (name =? "weight")%string
  then repeat 0%R (out_features m * in_features m)
  else repeat 0%R (out_features m).

Definition zeros (s : list nat) : tensor := mkTensor s (repeat 0%R (numel s)).

(** Which entries of [self.blocks] hold a self-attention module. *)
Definition is_attn_stage (s : gen_stage) : bool :=
  match s with
  | GAttn _ => true
  | GBlock _ => false
  end.

Definition attn_layout (G : Generator) : list bool :=
  map is_attn_stage (List.concat (blocks G)).

(** Total correctness of a computation: it returns in every ambient state,
    and what it returns satisfies [P]. *)
Definition returns {world A : Type} (c : world -> Res (A * world))
  (P : A -> Prop) : Prop :=
  forall w, exists a w', c w = Ok (a, w') /\ P a.

(** The computation raises [e] in every ambient state. *)
Definition raises {world A : Type} (c : world -> Res (A * world)) (e : exn)
  : Prop :=
  forall w, c w = Raise e.

(** What a run produced, without the ambient state it left. *)
Definition outcome {world A : Type} (r : Res (A * world)) : Res A :=
  match r with
  | Ok (a, _) => Ok a
  | Raise e => Raise e
  end.

(** Labels as the networks expect them: one class index per sample. *)
Definition labels_ok (classes : nat) (b : nat) (lab : list Z) : Prop :=
  List.length lab = b /\ forallb (label_in_range classes) lab = true.

(** Whether the loop of [Generator.__init__] appends a self-attention module
    after the block it builds at [index]. *)
Definition attn_after_g (cfg : GenConfig) (index : nat) : bool :=
  mem_nat (index + 1) (attn_g_loc cfg) && g_apply_attn cfg.

Definition attn_after_d (cfg : DiscConfig) (index : nat) : bool :=
  mem_nat (index + 1) (attn_d_loc cfg) && d_apply_attn cfg.

Definition opt_g_attn (present : bool) (pos channels : nat)
  : list (list gen_stage) :=
  if present then [[GAttn (mkSelfAttention (Stage pos "") channels true)]]
  else [].

Definition opt_d_attn (present : bool) (pos channels : nat)
  : list (list disc_stage) :=
  if present then [[DAttn (mkSelfAttention (Stage pos "") channels false)]]
  else [].

(** An engine whose results do not depend on the ambient state: no layer it
    provides draws random numbers or reads back what an earlier call left. *)
Definition engine_pure {world Theta : Type}
  (engine : Theta -> bool -> op -> list tensor -> list nat -> world
            -> list R * world) : Prop :=
  forall theta amp o args s w1 w2,
    fst (engine theta amp o args s w1) = fst (engine theta amp o args s w2).

(** A computation whose outcome is the same in every ambient state. *)
Definition deterministic {world A : Type} (c : world -> Res (A * world))
  : Prop :=
  forall w1 w2, outcome (c w1) = outcome (c w2).

(** Example configurations. *)
Definition gen_cfg (img : nat) (mtd : string) (loc : list nat) : GenConfig :=
  mkGenConfig 80 0 img 64 true loc mtd 10 "ortho" 0 false.

Definition disc_cfg (mtd aux : string) (classes : nat) (normalize : bool)
  : DiscConfig :=
  mkDiscConfig 32 64 true true [1] mtd aux 512 normalize classes "ortho" 0
    false.

(** The width of the adversarial head and the class count of the conditioning
    heads, as [Discriminator.__init__] computes them. *)
Definition adv_out_features (cfg : DiscConfig) : nat :=
  if (d_cond_mtd cfg =? "MH")%string then 1 + d_num_classes cfg
  else if (d_cond_mtd cfg =? "MD")%string then d_num_classes cfg
  else 1.

Definition head_classes (cfg : DiscConfig) : nat :=
  if (aux_cls_type cfg =? "ADC")%string then d_num_classes cfg * 2
  else d_num_classes cfg.

(** The seven conditioning methods that [Discriminator.forward] knows. *)
Definition known_d_cond_mtd (mtd : string) : bool :=
  (mtd =? "W/O")%string || (mtd =? "MH")%string || (mtd =? "MD")%string
  || (mtd =? "AC")%string || (mtd =? "PD")%string || (mtd =? "2C")%string
  || (mtd =? "D2DCE")%string.

(** The methods for which a twin head can be built. *)
Definition twin_d_cond_mtd (mtd : string) : bool :=
  (mtd =? "AC")%string || is_2C_family mtd.




(** An engine that fills the result it is asked for: as many values as the
    shape has entries. *)
Definition engine_sized {world Theta : Type}
  (engine : Theta -> bool -> op -> list tensor -> list nat -> world
            -> list R * world) : Prop :=
  forall theta amp o args s w,
    List.length (fst (engine theta amp o args s w)) = numel s.

(** Entry (i, c) of a two-axis tensor. *)
Definition entry2 (t : tensor) (i c : nat) : R :=
  nth (i * nth 1 (shape t) 0 + c) (data t) 0%R.

(** A computation that raises nothing but what [ok] allows. *)
Definition raises_within {world A : Type} (ok : exn -> Prop)
  (c : world -> Res (A * world)) : Prop :=
  forall w e, c w = Raise e -> ok e.

(** The errors of the tensor engine: a shape that does not fit, an index out
    of range. *)
Definition engine_error (e : exn) : Prop :=
  e = RuntimeError \/ e = IndexError.

(** Which entries of [self.blocks] of the discriminator hold a self-attention
    module. *)
Definition is_d_attn_stage (s : disc_stage) : bool :=
  match s with
  | DAttn _ => true
  | DBlock _ => false
  end.

Definition d_attn_layout (D : Discriminator) : list bool :=
  map is_d_attn_stage (List.concat (D_blocks D)).

(** The channel widths of the self-attention modules, in sequence order. *)
Definition g_attn_channels (G : Generator) : list nat :=
  flat_map (fun s => match s with
                     | GAttn a => [attn_channels a]
                     | GBlock _ => []
                     end) (List.concat (blocks G)).

Definition d_attn_channels (D : Discriminator) : list nat :=
  flat_map (fun s => match s with
                     | DAttn a => [attn_channels a]
                     | DBlock _ => []
                     end) (List.concat (D_blocks D)).

(** Whether an optional layer was created. *)
Definition is_some {A : Type} (o : option A) : bool :=
  match o with
  | Some _ => true
  | None => false
  end.

(** A generator block whose normalisation layer is the one its conditioning
    method calls for. *)
Definition gen_block_consistent (b : GenBlock) : Prop :=
  (gb_g_cond_mtd b = "W/O" /\ exists m, gb_bn0 b = PlainBN m) \/
  (gb_g_cond_mtd b = "cBN" /\ exists m, gb_bn0 b = ClassBN m).

Definition gen_stage_consistent (s : gen_stage) : Prop :=
  match s with
  | GBlock b => gen_block_consistent b
  | GAttn _ => True
  end.

(** * Properties *)

(** ** The hyperbolic tangent stays within [-1, 1] *)



(** ** Shape rules on small inputs *)

Example squeeze_batch_of_four : squeeze_shape [4; 1] = [4].
Proof. reflexivity. Qed.

Example squeeze_batch_of_one : squeeze_shape [1; 1] = [].
Proof. reflexivity. Qed.

Example deconv_doubles_4 :
  deconv2d_shape (mkConv (Top "d") 512 256 4 2 1) [2; 512; 4; 4]
  = Ok [2; 256; 8; 8].
Proof. reflexivity. Qed.

Example conv_halves_32 :
  conv2d_shape (mkConv (Top "c") 64 64 4 2 1) [2; 64; 32; 32]
  = Ok [2; 64; 16; 16].
Proof. reflexivity. Qed.

Example linear_512_into_256 :
  linear_shape (mkLinear (Top "linear2") 256 10 false) [2; 512]
  = Raise RuntimeError.
Proof. reflexivity. Qed.

Example broadcast_column : broadcast_shape [4] [4; 1] = Ok [4; 4].
Proof. reflexivity. Qed.

Example gather_negative_label : wrap_index 10 (-1) = Some 9.
Proof. reflexivity. Qed.

Example generator_layout_attn_1_3 :
  match Generator_init (gen_cfg 32 "W/O" [1; 3]) with
  | Ok G => attn_layout G = [false; true; false; false; true]
  | Raise _ => False
  end.
Proof. reflexivity. Qed.

Example TAC_needs_twin_method :
  Discriminator_init (disc_cfg "MD" "TAC" 10 false)
  = Raise NotImplementedError.
Proof. reflexivity. Qed.

(** ** Reasoning about computations *)

Section Returns.

Context {world : Type}.

Lemma returns_ret {A : Type} (a : A) (P : A -> Prop) :
  P a -> returns (world := world) (ret a) P.
Proof. intros HP w. exists a, w. split; [reflexivity | exact HP]. Qed.

Lemma returns_bind {A B : Type} (c : world -> Res (A * world))
  (k : A -> world -> Res (B * world)) (P : A -> Prop) (Q : B -> Prop) :
  returns c P -> (forall a, P a -> returns (k a) Q) -> returns (bind c k) Q.
Proof.
  intros Hc Hk w. destruct (Hc w) as [a [w1 [E Pa]]].
  destruct (Hk a Pa w1) as [b [w2 [E2 Qb]]].
  exists b, w2. unfold bind. rewrite E. split; assumption.
Qed.

Lemma returns_weaken {A : Type} (c : world -> Res (A * world))
  (P Q : A -> Prop) :
  returns c P -> (forall a, P a -> Q a) -> returns c Q.
Proof.
  intros Hc HPQ w. destruct (Hc w) as [a [w1 [E Pa]]].
  exists a, w1. split; [exact E | apply HPQ, Pa].
Qed.


Lemma raises_bind_l {A B : Type} (c : world -> Res (A * world))
  (k : A -> world -> Res (B * world)) (e : exn) :
  raises c e -> raises (bind c k) e.
Proof. intros Hc w. unfold bind. rewrite (Hc w). reflexivity. Qed.

Lemma raises_bind_r {A B : Type} (c : world -> Res (A * world))
  (k : A -> world -> Res (B * world)) (P : A -> Prop) (e : exn) :
  returns c P -> (forall a, P a -> raises (k a) e) -> raises (bind c k) e.
Proof.
  intros Hc Hk w. destruct (Hc w) as [a [w1 [E Pa]]].
  unfold bind. rewrite E. apply Hk, Pa.
Qed.

End Returns.

Section Facts.

Variable world : Type.
Variable Theta : Type.
Variable engine :
  Theta -> bool -> op -> list tensor -> list nat -> world -> list R * world.
Variable weights : Theta -> Linear -> string -> list R.
Variable theta : Theta.

Lemma returns_call (amp : bool) (o : op) (args : list tensor)
  (r : Res (list nat)) (s : list nat) :
  r = Ok s -> returns (call engine theta amp o args r) (fun t => shape t = s).
Proof.
  intros -> w. unfold call.
  destruct (engine theta amp o args s w) as [d w'] eqn:E.
  exists (mkTensor s d), w'. split; reflexivity.
Qed.

Lemma raises_call (amp : bool) (o : op) (args : list tensor)
  (r : Res (list nat)) (e : exn) :
  r = Raise e -> raises (call engine theta amp o args r) e.
Proof. intros -> w. reflexivity. Qed.

(** *** Shape rules at the arguments the two networks use *)

Lemma deconv2d_shape_double (st : site) (cin cout b h w : nat) :
  1 <= h -> 1 <= w ->
  deconv2d_shape (mkConv st cin cout 4 2 1) [b; cin; h; w]
  = Ok [b; cout; 2 * h; 2 * w].
Proof.
  intros Hh Hw. unfold deconv2d_shape, deconv_out. cbn [in_channels
    out_channels kernel_size stride padding].
  rewrite Nat.eqb_refl.
  replace (1 <=? h) with true by (symmetry; apply Nat.leb_le; lia).
  replace (1 <=? w) with true by (symmetry; apply Nat.leb_le; lia).
  replace (2 * 1 <? (h - 1) * 2 + 4) with true
    by (symmetry; apply Nat.ltb_lt; lia).
  replace (2 * 1 <? (w - 1) * 2 + 4) with true
    by (symmetry; apply Nat.ltb_lt; lia).
  cbn [andb].
  replace ((h - 1) * 2 + 4 - 2 * 1) with (2 * h) by lia.
  replace ((w - 1) * 2 + 4 - 2 * 1) with (2 * w) by lia.
  reflexivity.
Qed.

Lemma conv2d_shape_same (st : site) (cin cout b h w : nat) :
  1 <= h -> 1 <= w ->
  conv2d_shape (mkConv st cin cout 3 1 1) [b; cin; h; w] = Ok [b; cout; h; w].
Proof.
  intros Hh Hw. unfold conv2d_shape, conv_out. cbn [in_channels
    out_channels kernel_size stride padding].
  rewrite Nat.eqb_refl.
  replace (3 <=? h + 2 * 1) with true by (symmetry; apply Nat.leb_le; lia).
  replace (3 <=? w + 2 * 1) with true by (symmetry; apply Nat.leb_le; lia).
  cbn [andb Nat.leb]. rewrite !Nat.div_1_r.
  replace (h + 2 * 1 - 3 + 1) with h by lia.
  replace (w + 2 * 1 - 3 + 1) with w by lia.
  reflexivity.
Qed.

Lemma conv2d_shape_half (st : site) (cin cout b h w : nat) :
  2 <= h -> 2 <= w ->
  conv2d_shape (mkConv st cin cout 4 2 1) [b; cin; h; w]
  = Ok [b; cout; h / 2; w / 2].
Proof.
  intros Hh Hw. unfold conv2d_shape, conv_out. cbn [in_channels
    out_channels kernel_size stride padding].
  rewrite Nat.eqb_refl.
  replace (4 <=? h + 2 * 1) with true by (symmetry; apply Nat.leb_le; lia).
  replace (4 <=? w + 2 * 1) with true by (symmetry; apply Nat.leb_le; lia).
  cbn [andb Nat.leb].
  assert (E : forall n, 2 <= n -> (n + 2 * 1 - 4) / 2 + 1 = n / 2).
  { intros n Hn. replace (n + 2 * 1 - 4) with (n - 2) by lia.
    replace n with ((n - 2) + 1 * 2) at 2 by lia.
    rewrite Nat.div_add by lia. reflexivity. }
  rewrite !E by assumption. reflexivity.
Qed.

Lemma linear_shape_2d (m : Linear) (b : nat) :
  linear_shape m [b; in_features m] = Ok [b; out_features m].
Proof. unfold linear_shape. cbn [rev app]. rewrite Nat.eqb_refl. reflexivity. Qed.

Lemma linear_shape_mismatch (m : Linear) (b k : nat) :
  k <> in_features m -> linear_shape m [b; k] = Raise RuntimeError.
Proof.
  intros Hk. unfold linear_shape. cbn [rev app].
  destruct (Nat.eqb_spec k (in_features m)); [contradiction | reflexivity].
Qed.

(** *** Generator blocks *)

Lemma GenBlock_forward_returns (amp : bool) (cin cout classes pos : nat)
  (mtd : string) (blk : GenBlock) (x : tensor) (lab : list Z) (b h w : nat) :
  GenBlock_init cin cout mtd classes pos = Ok blk ->
  shape x = [b; cin; h; w] -> 1 <= h -> 1 <= w ->
  labels_ok classes b lab ->
  returns (GenBlock_forward engine theta amp blk x lab)
          (fun t => shape t = [b; cout; 2 * h; 2 * w]).
Proof.
  intros Hinit Hx Hh Hw [Hlen Hrange]. unfold GenBlock_init in Hinit.
  unfold GenBlock_forward.
  destruct (mtd =? "W/O")%string eqn:E1;
    [| destruct (mtd =? "cBN")%string eqn:E2; [| discriminate]];
    injection Hinit as <-; cbn [gb_deconv0 gb_g_cond_mtd gb_bn0];
    rewrite ?E1, ?E2.
  - eapply returns_bind.
    { apply returns_call. rewrite Hx. apply deconv2d_shape_double; assumption. }
    intros t1 H1. eapply returns_bind.
    { cbn [norm_call]. apply returns_call. rewrite H1. cbn [bn_shape bn_features].
      rewrite Nat.eqb_refl. reflexivity. }
    intros t2 H2. cbn beta. apply returns_call. rewrite H2. reflexivity.
  - eapply returns_bind.
    { apply returns_call. rewrite Hx. apply deconv2d_shape_double; assumption. }
    intros t1 H1. eapply returns_bind.
    { cbn [norm_call]. apply returns_call. rewrite H1.
      cbn [cbn_shape cbn_features cbn_classes].
      rewrite Hrange, Hlen, !Nat.eqb_refl. reflexivity. }
    intros t2 H2. cbn beta. apply returns_call. rewrite H2. reflexivity.
Qed.

Lemma attention_returns (amp : bool) (a : SelfAttention) (x : tensor)
  (b h w : nat) :
  shape x = [b; attn_channels a; h; w] ->
  returns (attention engine theta amp a x)
          (fun t => shape t = [b; attn_channels a; h; w]).
Proof.
  intros Hx. apply returns_call. rewrite Hx. unfold attn_shape.
  rewrite Nat.eqb_refl. reflexivity.
Qed.

Lemma run_stages_app {S : Type} (f : S -> tensor -> M world tensor)
  (l1 l2 : list S) (x : tensor) (w : world) :
  run_stages f (l1 ++ l2) x w = bind (run_stages f l1 x) (run_stages f l2) w.
Proof.
  revert x w. induction l1 as [| s l1 IH]; intros x w.
  - reflexivity.
  - cbn [run_stages app]. unfold bind at 1 2 3.
    destruct (f s x w) as [[t w1] | e]; [| reflexivity].
    rewrite IH. reflexivity.
Qed.

Lemma returns_run_stages_app {S : Type} (f : S -> tensor -> M world tensor)
  (l1 l2 : list S) (x : tensor) (P Q : tensor -> Prop) :
  returns (run_stages f l1 x) P ->
  (forall t, P t -> returns (run_stages f l2 t) Q) ->
  returns (run_stages f (l1 ++ l2) x) Q.
Proof.
  intros H1 H2 w. rewrite run_stages_app.
  exact (returns_bind _ _ P Q H1 H2 w).
Qed.

Lemma returns_run_stages_one {S : Type} (f : S -> tensor -> M world tensor)
  (s : S) (x : tensor) (P : tensor -> Prop) :
  returns (f s x) P -> returns (run_stages f [s] x) P.
Proof.
  intros H. cbn [run_stages]. eapply returns_bind; [exact H |].
  intros t Pt. apply returns_ret, Pt.
Qed.

(** *** Generator: what construction builds *)

Lemma Generator_init_inv (cfg : GenConfig) (G : Generator) :
  Generator_init cfg = Ok G ->
  exists b0 b1 b2 p0 p1 p2 q0 q1 q2,
    GenBlock_init 512 256 (g_cond_mtd cfg) (g_num_classes cfg) p0 = Ok b0 /\
    GenBlock_init 256 128 (g_cond_mtd cfg) (g_num_classes cfg) p1 = Ok b1 /\
    GenBlock_init 128 64 (g_cond_mtd cfg) (g_num_classes cfg) p2 = Ok b2 /\
    blocks G = [[GBlock b0]] ++ opt_g_attn (attn_after_g cfg 0) q0 256
               ++ [[GBlock b1]] ++ opt_g_attn (attn_after_g cfg 1) q1 128
               ++ [[GBlock b2]] ++ opt_g_attn (attn_after_g cfg 2) q2 64 /\
    in_dims G = [512; 256; 128] /\
    linear0 G = mkLinear (Top "linear0") (z_dim cfg) (512 * 4 * 4) true /\
    conv4 G = mkConv (Top "conv4") 64 3 3 1 1 /\
    G_mixed_precision G = g_mixed_precision cfg.
Proof.
  unfold Generator_init. cbn [List.length seq Generator_blocks nth app last].
  unfold GenBlock_init, attn_after_g.
  intros H.
  destruct (g_cond_mtd cfg =? "W/O")%string eqn:E1;
    [| destruct (g_cond_mtd cfg =? "cBN")%string eqn:E2; [| discriminate H]];
    destruct (mem_nat (0 + 1) (attn_g_loc cfg) && g_apply_attn cfg) eqn:A0;
    destruct (mem_nat (1 + 1) (attn_g_loc cfg) && g_apply_attn cfg) eqn:A1;
    destruct (mem_nat (2 + 1) (attn_g_loc cfg) && g_apply_attn cfg) eqn:A2;
    cbn [List.length app] in H; injection H as <-;
    cbn [blocks in_dims linear0 conv4 G_mixed_precision opt_g_attn app];
    repeat eexists.
  all: exact 0.
Qed.





(** *** Generator: determinism *)

Lemma deterministic_ret {A : Type} (a : A) :
  deterministic (world := world) (ret a).
Proof. intros w1 w2. reflexivity. Qed.



Lemma deterministic_bind {A B : Type} (c : M world A) (k : A -> M world B) :
  deterministic c -> (forall a, deterministic (k a)) ->
  deterministic (bind c k).
Proof.
  intros Hc Hk w1 w2. unfold bind. specialize (Hc w1 w2).
  destruct (c w1) as [[a1 v1] | e1], (c w2) as [[a2 v2] | e2];
    cbn [outcome] in Hc; try discriminate Hc.
  - injection Hc as <-. apply Hk.
  - cbn [outcome]. injection Hc as <-. reflexivity.
Qed.

Lemma deterministic_call (amp : bool) (o : op) (args : list tensor)
  (r : Res (list nat)) :
  engine_pure engine -> deterministic (call engine theta amp o args r).
Proof.
  intros Hp w1 w2. unfold call. destruct r as [s | e]; [| reflexivity].
  specialize (Hp theta amp o args s w1 w2).
  destruct (engine theta amp o args s w1) as [d1 v1].
  destruct (engine theta amp o args s w2) as [d2 v2].
  cbn [fst] in Hp. subst d2. reflexivity.
Qed.





(** *** Generator: the stage sequence *)

(** C7.  With [apply_attn] set and [attn_g_loc] holding 2 alone, the three
    stages of the channel schedule give a sequence of four entries: the blocks
    of stages 1 and 2, one self-attention module on the 128 channels that the
    block of stage 2 produces, and the block of stage 3.  Stages are numbered
    as [attn_g_loc] numbers them (the loop tests [index + 1]). *)
Theorem Generator_attention_after_stage_2 (cfg : GenConfig) (G : Generator) :
  g_apply_attn cfg = true -> attn_g_loc cfg = [2] ->
  Generator_init cfg = Ok G ->
  attn_layout G = [false; false; true; false] /\
  exists b1 b2 b3,
    GenBlock_init 512 256 (g_cond_mtd cfg) (g_num_classes cfg) 0 = Ok b1 /\
    GenBlock_init 256 128 (g_cond_mtd cfg) (g_num_classes cfg) 1 = Ok b2 /\
    GenBlock_init 128 64 (g_cond_mtd cfg) (g_num_classes cfg) 3 = Ok b3 /\
    blocks G = [[GBlock b1]; [GBlock b2];
                [GAttn (mkSelfAttention (Stage 2 "") 128 true)];
                [GBlock b3]].
Proof.
  intros Ha Hloc. unfold Generator_init.
  cbn [List.length seq Generator_blocks nth app last].
  rewrite Ha, Hloc. cbn [mem_nat existsb Nat.add Nat.eqb orb andb].
  destruct (GenBlock_init 512 256 (g_cond_mtd cfg) (g_num_classes cfg) 0)
    as [b1 | e] eqn:E1; [| discriminate].
  cbn [List.length app].
  destruct (GenBlock_init 256 128 (g_cond_mtd cfg) (g_num_classes cfg) 1)
    as [b2 | e] eqn:E2; [| discriminate].
  cbn [List.length app].
  destruct (GenBlock_init 128 64 (g_cond_mtd cfg) (g_num_classes cfg) 3)
    as [b3 | e] eqn:E3; [| discriminate].
  cbn [List.length app].
  intros H. injection H as <-. split; [reflexivity |].
  exists b1, b2, b3. repeat split; reflexivity.
Qed.

(** *** Generator: the image *)


(** *** Discriminator: what construction builds *)

Lemma Discriminator_init_fields (cfg : DiscConfig) (D : Discriminator) :
  Discriminator_init cfg = Ok D ->
  D_blocks D = Discriminator_blocks [3; 64; 128] [64; 128; 256] cfg [0; 1; 2] []
  /\ conv1 D = mkConv (Top "conv1") 256 512 3 1 1
  /\ bn1 D = (if apply_d_sn cfg then None
              else Some (mkBatchNorm (Top "bn1") 512))
  /\ linear1 D = mkLinear (Top "linear1") 512 (adv_out_features cfg) true
  /\ D_apply_d_sn D = apply_d_sn cfg
  /\ D_d_cond_mtd D = d_cond_mtd cfg
  /\ D_aux_cls_type D = aux_cls_type cfg
  /\ D_normalize_d_embed D = normalize_d_embed cfg
  /\ D_mixed_precision D = d_mixed_precision cfg.
Proof.
  unfold Discriminator_init, adv_out_features. intros H.
  destruct (d_cond_mtd cfg =? "MH")%string;
    destruct (d_cond_mtd cfg =? "MD")%string;
    destruct (d_cond_mtd cfg =? "AC")%string;
    destruct (d_cond_mtd cfg =? "PD")%string;
    destruct (is_2C_family (d_cond_mtd cfg));
    destruct (aux_cls_type cfg =? "TAC")%string;
    try discriminate H; injection H as <-; repeat split; reflexivity.
Qed.

Lemma Discriminator_init_heads (cfg : DiscConfig) (D : Discriminator) :
  Discriminator_init cfg = Ok D ->
  let mtd := d_cond_mtd cfg in
  let n := head_classes cfg in
  linear2 D =
    (if (mtd =? "AC")%string then Some (mkLinear (Top "linear2") 256 n false)
     else if (mtd =? "PD")%string then None
     else if is_2C_family mtd
          then Some (mkLinear (Top "linear2") 256 (d_embed_dim cfg) true)
          else None)
  /\ embedding D =
    (if (mtd =? "AC")%string then None
     else if (mtd =? "PD")%string
          then Some (mkEmbedding (Top "embedding") n 256)
     else if is_2C_family mtd
          then Some (mkEmbedding (Top "embedding") n (d_embed_dim cfg))
          else None)
  /\ linear_mi D =
    (if (aux_cls_type cfg =? "TAC")%string then
       if (mtd =? "AC")%string
       then Some (mkLinear (Top "linear_mi") 256 n false)
       else Some (mkLinear (Top "linear_mi") 256 (d_embed_dim cfg) true)
     else None)
  /\ embedding_mi D =
    (if (aux_cls_type cfg =? "TAC")%string then
       if (mtd =? "AC")%string then None
       else Some (mkEmbedding (Top "embedding_mi") n (d_embed_dim cfg))
     else None).
Proof.
  unfold Discriminator_init, head_classes. intros H. cbv zeta.
  destruct (aux_cls_type cfg =? "ADC")%string;
    destruct (d_cond_mtd cfg =? "AC")%string;
    destruct (d_cond_mtd cfg =? "PD")%string;
    destruct (is_2C_family (d_cond_mtd cfg));
    destruct (aux_cls_type cfg =? "TAC")%string;
    try discriminate H; injection H as <-; repeat split; reflexivity.
Qed.

(** Construction raises exactly when a twin head is asked for under a method
    that has none. *)
Lemma Discriminator_init_raises (cfg : DiscConfig) :
  (aux_cls_type cfg =? "TAC")%string
  && negb (twin_d_cond_mtd (d_cond_mtd cfg)) = true ->
  Discriminator_init cfg = Raise NotImplementedError.
Proof.
  unfold Discriminator_init, twin_d_cond_mtd. intros H.
  destruct (aux_cls_type cfg =? "TAC")%string; [| discriminate H].
  destruct (d_cond_mtd cfg =? "AC")%string; [discriminate H |].
  destruct (is_2C_family (d_cond_mtd cfg)); [discriminate H |].
  destruct (d_cond_mtd cfg =? "PD")%string; reflexivity.
Qed.


(** *** Discriminator: the pooled feature *)

Lemma Discriminator_blocks_layout (cfg : DiscConfig) :
  exists p0 p1 p2 q0 q1 q2,
    Discriminator_blocks [3; 64; 128] [64; 128; 256] cfg [0; 1; 2] []
    = [[DBlock (DiscBlock_init 3 64 (apply_d_sn cfg) p0)]]
      ++ opt_d_attn (attn_after_d cfg 0) q0 64
      ++ [[DBlock (DiscBlock_init 64 128 (apply_d_sn cfg) p1)]]
      ++ opt_d_attn (attn_after_d cfg 1) q1 128
      ++ [[DBlock (DiscBlock_init 128 256 (apply_d_sn cfg) p2)]]
      ++ opt_d_attn (attn_after_d cfg 2) q2 256.
Proof.
  cbn [Discriminator_blocks nth List.length app]. unfold attn_after_d.
  destruct (mem_nat (0 + 1) (attn_d_loc cfg) && d_apply_attn cfg);
    destruct (mem_nat (1 + 1) (attn_d_loc cfg) && d_apply_attn cfg);
    destruct (mem_nat (2 + 1) (attn_d_loc cfg) && d_apply_attn cfg);
    cbn [List.length app opt_d_attn]; repeat eexists.
  all: exact 0.
Qed.

Lemma opt_bn_returns (amp sn : bool) (st : site) (c : nat) (x : tensor)
  (b h w : nat) :
  shape x = [b; c; h; w] ->
  returns (if negb sn
           then opt_bn engine theta amp
                  (if sn then None else Some (mkBatchNorm st c)) x
           else ret x)
          (fun t => shape t = [b; c; h; w]).
Proof.
  intros Hx. destruct sn; cbn [negb opt_bn].
  - apply returns_ret, Hx.
  - apply returns_call. rewrite Hx. cbn [bn_shape bn_features].
    rewrite Nat.eqb_refl. reflexivity.
Qed.

Lemma DiscBlock_forward_returns (amp sn : bool) (cin cout pos : nat)
  (x : tensor) (b h w : nat) :
  shape x = [b; cin; h; w] -> 2 <= h -> 2 <= w ->
  returns (DiscBlock_forward engine theta amp (DiscBlock_init cin cout sn pos) x)
          (fun t => shape t = [b; cout; h / 2; w / 2]).
Proof.
  intros Hx Hh Hw. unfold DiscBlock_forward, DiscBlock_init.
  cbn [db_conv0 db_conv1 db_bn0 db_bn1 db_apply_d_sn].
  eapply returns_bind.
  { apply returns_call. rewrite Hx. apply conv2d_shape_same; lia. }
  intros t1 H1. eapply returns_bind.
  { apply opt_bn_returns, H1. }
  intros t2 H2. eapply returns_bind.
  { apply returns_call. rewrite H2. reflexivity. }
  intros t3 H3. eapply returns_bind.
  { apply returns_call. rewrite H3. apply conv2d_shape_half; assumption. }
  intros t4 H4. eapply returns_bind.
  { apply opt_bn_returns, H4. }
  intros t5 H5. apply returns_call. rewrite H5. reflexivity.
Qed.

Lemma d_block_stage_returns (amp sn : bool) (cin cout pos : nat)
  (x : tensor) (b h w : nat) :
  shape x = [b; cin; h; w] -> 2 <= h -> 2 <= w ->
  returns (run_stages (fun blocklist =>
                         run_stages (disc_stage_forward engine theta amp)
                           blocklist)
             [[DBlock (DiscBlock_init cin cout sn pos)]] x)
          (fun t => shape t = [b; cout; h / 2; w / 2]).
Proof.
  intros Hx Hh Hw.
  apply returns_run_stages_one, returns_run_stages_one.
  cbn [disc_stage_forward]. apply DiscBlock_forward_returns; assumption.
Qed.

Lemma opt_d_attn_returns (amp : bool) (present : bool) (pos c : nat)
  (x : tensor) (b h w : nat) :
  shape x = [b; c; h; w] ->
  returns (run_stages (fun blocklist =>
                         run_stages (disc_stage_forward engine theta amp)
                           blocklist)
             (opt_d_attn present pos c) x)
          (fun t => shape t = [b; c; h; w]).
Proof.
  intros Hx. destruct present; cbn [opt_d_attn].
  - apply returns_run_stages_one, returns_run_stages_one.
    cbn [disc_stage_forward].
    apply (attention_returns amp (mkSelfAttention (Stage pos "") c false)), Hx.
  - apply returns_ret, Hx.
Qed.

(** Lines 189-197 return a (b, 512) tensor on every batch of images whose
    sides survive three halvings. *)
Lemma Discriminator_pool_returns (cfg : DiscConfig) (D : Discriminator)
  (amp : bool) (x : tensor) (b h w : nat) :
  Discriminator_init cfg = Ok D ->
  shape x = [b; 3; h; w] -> 8 <= h -> 8 <= w ->
  returns (Discriminator_pool engine theta amp D x)
          (fun t => shape t = [b; 512]).
Proof.
  intros Hinit Hx Hh Hw.
  destruct (Discriminator_init_fields cfg D Hinit)
    as (Hbl & Hc1 & Hb1 & _ & Hsn & _).
  destruct (Discriminator_blocks_layout cfg)
    as (p0 & p1 & p2 & q0 & q1 & q2 & Hlay).
  unfold Discriminator_pool. rewrite Hbl, Hlay, Hc1, Hb1, Hsn.
  eapply returns_bind.
  { eapply returns_run_stages_app.
    { apply d_block_stage_returns; [exact Hx | lia | lia]. }
    intros t1 H1. eapply returns_run_stages_app.
    { apply opt_d_attn_returns, H1. }
    intros t2 H2. eapply returns_run_stages_app.
    { apply d_block_stage_returns;
        [exact H2 | apply Nat.div_le_lower_bound; lia ..]. }
    intros t3 H3. eapply returns_run_stages_app.
    { apply opt_d_attn_returns, H3. }
    intros t4 H4. eapply returns_run_stages_app.
    { apply d_block_stage_returns; [exact H4 | |];
        apply Nat.div_le_lower_bound; try lia;
        apply Nat.div_le_lower_bound; lia. }
    intros t5 H5. apply opt_d_attn_returns, H5. }
  intros t6 H6. cbn beta in H6.
  assert (Hh8 : 1 <= h / 2 / 2 / 2).
  { repeat (apply Nat.div_le_lower_bound; [lia |]). lia. }
  assert (Hw8 : 1 <= w / 2 / 2 / 2).
  { repeat (apply Nat.div_le_lower_bound; [lia |]). lia. }
  eapply returns_bind.
  { apply returns_call. rewrite H6. apply conv2d_shape_same; assumption. }
  intros t7 H7. eapply returns_bind.
  { apply opt_bn_returns, H7. }
  intros t8 H8. eapply returns_bind.
  { apply returns_call. rewrite H8. reflexivity. }
  intros t9 H9. apply returns_call. rewrite H9. reflexivity.
Qed.

(** *** No layer raises a configuration error *)































Lemma class_conditioning_unknown (amp : bool) (D : Discriminator)
  (h0 adv : tensor) (lab : list Z) :
  known_d_cond_mtd (D_d_cond_mtd D) = false ->
  raises (class_conditioning engine weights theta amp D h0 adv lab)
         NotImplementedError.
Proof.
  unfold known_d_cond_mtd, class_conditioning, is_2C_family. intros Hk.
  repeat (apply orb_false_iff in Hk; destruct Hk as [Hk ?]).
  repeat match goal with H : (_ =? _)%string = false |- _ => rewrite H; clear H end.
  intros w. reflexivity.
Qed.

Lemma adv_head_returns (cfg : DiscConfig) (D : Discriminator) (amp : bool)
  (h0 : tensor) (b : nat) :
  Discriminator_init cfg = Ok D -> shape h0 = [b; 512] ->
  returns (Discriminator_adv_head engine theta amp D h0)
          (fun a => shape a = [b; adv_out_features cfg]).
Proof.
  intros Hinit Hh.
  destruct (Discriminator_init_fields cfg D Hinit) as (_ & _ & _ & Hl1 & _).
  unfold Discriminator_adv_head, linear. rewrite Hl1.
  apply returns_call. rewrite Hh.
  apply (linear_shape_2d (mkLinear (Top "linear1") 512 (adv_out_features cfg)
                            true)).
Qed.

(** A method outside the seven passes construction and is rejected by
    [forward], after the pooled feature and the adversarial head. *)
Lemma Discriminator_forward_unknown (cfg : DiscConfig) (D : Discriminator)
  (x : tensor) (lab : list Z) (eval adc_fake : bool) (b h w : nat) :
  Discriminator_init cfg = Ok D ->
  known_d_cond_mtd (d_cond_mtd cfg) = false ->
  shape x = [b; 3; h; w] -> 8 <= h -> 8 <= w ->
  raises (Discriminator_forward engine weights theta D x lab eval adc_fake)
         NotImplementedError.
Proof.
  intros Hinit Hk Hx Hh Hw.
  pose proof (Discriminator_init_fields cfg D Hinit)
    as (_ & _ & _ & _ & _ & Hm & _).
  unfold Discriminator_forward.
  eapply raises_bind_r.
  { eapply Discriminator_pool_returns; eassumption. }
  intros h0 Hh0. eapply raises_bind_r.
  { exact (adv_head_returns cfg D _ h0 b Hinit Hh0). }
  intros a Ha. apply raises_bind_l.
  apply class_conditioning_unknown. rewrite Hm. exact Hk.
Qed.


(** *** Discriminator: head sizes under ADC *)


(** *** Discriminator: the label under ADC *)




(** *** Discriminator: what [forward] returns without a class head *)

Lemma init_plain_no_twin (cfg : DiscConfig) (D : Discriminator) :
  Discriminator_init cfg = Ok D ->
  twin_d_cond_mtd (d_cond_mtd cfg) = false ->
  (aux_cls_type cfg =? "TAC")%string = false.
Proof.
  intros Hinit Htw.
  destruct (aux_cls_type cfg =? "TAC")%string eqn:E; [| reflexivity].
  rewrite (Discriminator_init_raises cfg) in Hinit; [discriminate |].
  rewrite E, Htw. reflexivity.
Qed.

Lemma twin_conditioning_none (amp : bool) (D : Discriminator) (h1 : tensor)
  (lab : list Z) :
  (D_aux_cls_type D =? "TAC")%string = false ->
  twin_conditioning engine weights theta amp D h1 lab
  = ret (mkMiVars None None None).
Proof. intros E. unfold twin_conditioning. rewrite E. reflexivity. Qed.

(** Under W/O and MH the bundle holds the pooled feature and the squeezed
    output of the adversarial head. *)
Lemma Discriminator_forward_plain (cfg : DiscConfig) (D : Discriminator)
  (x : tensor) (lab : list Z) (eval adc_fake : bool) (b hh ww : nat) :
  Discriminator_init cfg = Ok D ->
  d_cond_mtd cfg = "W/O" \/ d_cond_mtd cfg = "MH" ->
  shape x = [b; 3; hh; ww] -> 8 <= hh -> 8 <= ww ->
  returns (Discriminator_forward engine weights theta D x lab eval adc_fake)
          (fun out =>
             shape (h out) = [b; 512] /\
             shape (adv_output out)
             = squeeze_shape [b; adv_out_features cfg] /\
             label out = adc_label D adc_fake lab /\
             cls_output out = None /\ embed out = None /\ proxy out = None).
Proof.
  intros Hinit Hm Hx Hh Hw.
  pose proof (Discriminator_init_fields cfg D Hinit)
    as (_ & _ & _ & _ & _ & HDm & HDaux & _).
  assert (Htw : twin_d_cond_mtd (d_cond_mtd cfg) = false)
    by (destruct Hm as [-> | ->]; reflexivity).
  pose proof (init_plain_no_twin cfg D Hinit Htw) as Hnt.
  unfold Discriminator_forward.
  eapply returns_bind.
  { eapply Discriminator_pool_returns; eassumption. }
  intros h0 Hh0. eapply returns_bind.
  { exact (adv_head_returns cfg D _ h0 b Hinit Hh0). }
  intros a Ha. cbv zeta.
  eapply returns_bind
    with (P := fun cv => cv = mkCondVars h0 (torch_squeeze a) None None None).
  { unfold class_conditioning. rewrite HDm.
    destruct Hm as [-> | ->];
      cbn [String.eqb Ascii.eqb Bool.eqb is_2C_family orb];
      apply returns_ret; reflexivity. }
  intros cv ->. cbn [cv_h cv_adv_output cv_cls_output cv_embed cv_proxy].
  rewrite twin_conditioning_none by (rewrite HDaux; exact Hnt).
  intros w. eexists. exists w. split; [reflexivity |].
  cbn [h adv_output label cls_output embed proxy torch_squeeze shape].
  rewrite Ha. repeat split; assumption.
Qed.

(** *** Discriminator: the class heads read 256 features of 512 *)

Lemma normalize_each_weight_returns (amp : bool) (m : Linear) :
  bias m = false ->
  returns (normalize_each engine theta amp (parameters weights theta m))
          (fun _ => True).
Proof.
  intros Hb. unfold parameters. rewrite Hb. cbn [normalize_each].
  eapply returns_bind.
  { apply returns_call. reflexivity. }
  intros _ _. apply returns_ret. exact I.
Qed.

Lemma linear_raises_mismatch (amp : bool) (m : Linear) (x : tensor)
  (b k : nat) :
  shape x = [b; k] -> k <> in_features m ->
  raises (linear engine theta amp m x) RuntimeError.
Proof.
  intros Hx Hk. apply raises_call. rewrite Hx.
  apply linear_shape_mismatch, Hk.
Qed.

Lemma broadcast_shape_256_512 (a b : nat) :
  broadcast_shape [a; 256] [b; 512] = Raise RuntimeError.
Proof.
  unfold broadcast_shape. cbn [rev app broadcast_rev].
  destruct (a =? b); [reflexivity |].
  destruct (a =? 1); [reflexivity |].
  destruct (b =? 1); reflexivity.
Qed.

(** Under AC, 2C and D2DCE the class head is built for 256 input features
    and receives the 512 pooled ones: [forward] raises on every batch. *)
Lemma Discriminator_forward_class_head_raises (cfg : DiscConfig)
  (D : Discriminator) (x : tensor) (lab : list Z) (eval adc_fake : bool)
  (b hh ww : nat) :
  Discriminator_init cfg = Ok D ->
  d_cond_mtd cfg = "AC" \/ d_cond_mtd cfg = "2C" \/ d_cond_mtd cfg = "D2DCE" ->
  shape x = [b; 3; hh; ww] -> 8 <= hh -> 8 <= ww ->
  raises (Discriminator_forward engine weights theta D x lab eval adc_fake)
         RuntimeError.
Proof.
  intros Hinit Hm Hx Hh Hw.
  pose proof (Discriminator_init_fields cfg D Hinit)
    as (_ & _ & _ & _ & _ & HDm & _).
  destruct (Discriminator_init_heads cfg D Hinit) as (Hl2 & _).
  cbv zeta in Hl2.
  unfold Discriminator_forward.
  eapply raises_bind_r.
  { eapply Discriminator_pool_returns; eassumption. }
  intros h0 Hh0. eapply raises_bind_r.
  { exact (adv_head_returns cfg D _ h0 b Hinit Hh0). }
  intros a Ha. cbv zeta. apply raises_bind_l.
  unfold class_conditioning. rewrite HDm, Hl2.
  destruct Hm as [-> | [-> | ->]];
    cbn [String.eqb Ascii.eqb Bool.eqb is_2C_family orb opt_linear
           opt_parameters].
  - destruct (D_normalize_d_embed D).
    + eapply raises_bind_r with (P := fun t => shape t = [b; 512]).
      { eapply returns_bind
          with (P := fun ps =>
                       ps = parameters weights theta
                              (mkLinear (Top "linear2") 256 (head_classes cfg)
                                 false));
          [apply returns_ret; reflexivity |].
        intros ps ->. eapply returns_bind.
        - apply normalize_each_weight_returns. reflexivity.
        - intros _ _. apply returns_call. rewrite Hh0. reflexivity. }
      intros h1 Hh1. apply raises_bind_l.
      eapply linear_raises_mismatch; [exact Hh1 | discriminate].
    + eapply raises_bind_r; [apply returns_ret; exact Hh0 |].
      intros h1 Hh1. apply raises_bind_l.
      eapply linear_raises_mismatch; [exact Hh1 | discriminate].
  - apply raises_bind_l.
    eapply linear_raises_mismatch; [exact Hh0 | discriminate].
  - apply raises_bind_l.
    eapply linear_raises_mismatch; [exact Hh0 | discriminate].
Qed.

(** Under PD the table is built with 256 columns and multiplied with the 512
    pooled features: [forward] raises on every batch, on the lookup when a
    label is no row of the table, on the product otherwise. *)
Lemma Discriminator_forward_PD_raises (cfg : DiscConfig)
  (D : Discriminator) (x : tensor) (lab : list Z) (eval adc_fake : bool)
  (b hh ww : nat) :
  Discriminator_init cfg = Ok D -> d_cond_mtd cfg = "PD" ->
  shape x = [b; 3; hh; ww] -> 8 <= hh -> 8 <= ww ->
  raises (Discriminator_forward engine weights theta D x lab eval adc_fake)
         (if forallb (label_in_range (head_classes cfg))
               (adc_label D adc_fake lab)
          then RuntimeError else IndexError).
Proof.
  intros Hinit Hm Hx Hh Hw.
  pose proof (Discriminator_init_fields cfg D Hinit)
    as (_ & _ & _ & _ & _ & HDm & _).
  destruct (Discriminator_init_heads cfg D Hinit) as (_ & Hemb & _).
  cbv zeta in Hemb. rewrite Hm in Hemb. cbn in Hemb.
  unfold Discriminator_forward.
  eapply raises_bind_r.
  { eapply Discriminator_pool_returns; eassumption. }
  intros h0 Hh0. eapply raises_bind_r.
  { exact (adv_head_returns cfg D _ h0 b Hinit Hh0). }
  intros a Ha. cbv zeta. apply raises_bind_l.
  unfold class_conditioning. rewrite HDm, Hm, Hemb.
  cbn [String.eqb Ascii.eqb Bool.eqb opt_embedding].
  unfold embedding_lookup, embedding_shape. cbn [num_embeddings embedding_dim].
  destruct (forallb (label_in_range (head_classes cfg))
              (adc_label D adc_fake lab)).
  - eapply raises_bind_r; [apply returns_call; reflexivity |].
    intros e He. apply raises_bind_l. apply raises_call.
    rewrite He, Hh0. apply broadcast_shape_256_512.
  - apply raises_bind_l. apply raises_call. reflexivity.
Qed.

(** *** Discriminator: the gather of MD *)

Lemma wrap_index_lt (n : nat) (l : Z) (c : nat) :
  wrap_index n l = Some c -> c < n.
Proof.
  unfold wrap_index.
  destruct ((0 <=? l) && (l <? Z.of_nat n))%Z eqn:E1.
  - intros H. injection H as <-. apply andb_true_iff in E1. lia.
  - destruct ((- Z.of_nat n <=? l) && (l <? 0))%Z eqn:E2; [| discriminate].
    intros H. injection H as <-. apply andb_true_iff in E2. lia.
Qed.

Lemma firstn_1_skipn (dat : list R) (k : nat) :
  k < List.length dat -> firstn 1 (skipn k dat) = [nth k dat 0%R].
Proof.
  revert k. induction dat as [| d dat IH]; intros k Hk; cbn [List.length] in Hk.
  - lia.
  - destruct k as [| k]; [reflexivity |].
    cbn [skipn nth]. apply IH. lia.
Qed.

Lemma gather_values_entries (d0 d1 : nat) (dat : list R) (lab : list Z) :
  List.length dat = d0 * d1 ->
  Forall (fun l => wrap_index d1 l <> None) lab ->
  forall i, i + List.length lab <= d0 ->
  exists v,
    gather_values d0 d1 1 dat i lab = Ok v /\
    List.length v = List.length lab /\
    forall j c, j < List.length lab ->
      wrap_index d1 (nth j lab 0%Z) = Some c ->
      nth j v 0%R = nth ((i + j) * d1 + c) dat 0%R.
Proof.
  intros Hlen Hall. induction Hall as [| l ls Hl Hls IH]; intros i Hi.
  - exists []. repeat split. intros j c Hj. cbn [List.length] in Hj. lia.
  - cbn [List.length] in Hi. cbn [gather_values].
    replace (i <? d0) with true by (symmetry; apply Nat.ltb_lt; lia).
    destruct (wrap_index d1 l) as [c0 |] eqn:Ec; [| contradiction].
    destruct (IH (S i)) as (v & Ev & Lv & Hv); [lia |].
    rewrite Ev. eexists. split; [reflexivity |].
    pose proof (wrap_index_lt d1 l c0 Ec) as Hc0.
    rewrite firstn_1_skipn by nia.
    split; [cbn [List.length app]; lia |].
    intros j c Hj Hc. destruct j as [| j].
    + cbn [nth] in Hc. rewrite Ec in Hc. injection Hc as <-.
      cbn [app nth]. f_equal. lia.
    + cbn [nth] in Hc. cbn [app nth]. cbn [List.length] in Hj.
      rewrite (Hv j c) by (try lia; exact Hc). f_equal. lia.
Qed.

Lemma squeeze_shape_2 (b n : nat) :
  2 <= b -> 2 <= n -> squeeze_shape [b; n] = [b; n].
Proof.
  intros Hb Hn. unfold squeeze_shape. cbn [filter].
  replace (b =? 1) with false by (symmetry; apply Nat.eqb_neq; lia).
  replace (n =? 1) with false by (symmetry; apply Nat.eqb_neq; lia).
  reflexivity.
Qed.

Lemma call_sized (amp : bool) (o : op) (args : list tensor)
  (r : Res (list nat)) (w w' : world) (t : tensor) :
  engine_sized engine ->
  call engine theta amp o args r w = Ok (t, w') ->
  List.length (data t) = numel (shape t).
Proof.
  intros Hs. unfold call. destruct r as [s | e]; [| discriminate].
  specialize (Hs theta amp o args s w).
  destruct (engine theta amp o args s w) as [d v]. cbn [fst] in Hs.
  intros H. injection H as <- _. exact Hs.
Qed.

Lemma adc_label_length (D : Discriminator) (adc_fake : bool) (lab : list Z) :
  List.length (adc_label D adc_fake lab) = List.length lab.
Proof.
  unfold adc_label, label_fake, label_real.
  destruct (D_aux_cls_type D =? "ADC")%string; [| reflexivity].
  destruct adc_fake; apply length_map.
Qed.

(** Under MD, with at least two samples and two classes, [forward] returns
    one score per sample: entry (i, label[i]) of what the adversarial head
    produced, where a negative label counts from the last column. *)
Lemma Discriminator_forward_MD (cfg : DiscConfig) (D : Discriminator)
  (x : tensor) (lab : list Z) (eval adc_fake : bool) (b hh ww : nat) :
  engine_sized engine ->
  Discriminator_init cfg = Ok D -> d_cond_mtd cfg = "MD" ->
  shape x = [b; 3; hh; ww] -> 8 <= hh -> 8 <= ww ->
  2 <= b -> 2 <= d_num_classes cfg -> List.length lab = b ->
  Forall (fun l => wrap_index (d_num_classes cfg) l <> None)
         (adc_label D adc_fake lab) ->
  let amp := D_mixed_precision D && negb eval in
  forall w, exists h0 w1 a w2 out,
    Discriminator_pool engine theta amp D x w = Ok (h0, w1) /\
    Discriminator_adv_head engine theta amp D h0 w1 = Ok (a, w2) /\
    shape a = [b; d_num_classes cfg] /\
    Discriminator_forward engine weights theta D x lab eval adc_fake w
    = Ok (out, w2) /\
    h out = h0 /\ shape (adv_output out) = [b] /\
    forall i c, i < b ->
      wrap_index (d_num_classes cfg) (nth i (adc_label D adc_fake lab) 0%Z)
      = Some c ->
      nth i (data (adv_output out)) 0%R = entry2 a i c.
Proof.
  intros Hsz Hinit Hm Hx Hh Hw Hb Hn Hlen Hall amp w.
  pose proof (Discriminator_init_fields cfg D Hinit)
    as (_ & _ & _ & _ & _ & HDm & HDaux & _).
  assert (Htw : twin_d_cond_mtd (d_cond_mtd cfg) = false)
    by (rewrite Hm; reflexivity).
  pose proof (init_plain_no_twin cfg D Hinit Htw) as Hnt.
  destruct (Discriminator_pool_returns cfg D amp x b hh ww Hinit Hx Hh Hw w)
    as (h0 & w1 & E1 & Hh0).
  destruct (adv_head_returns cfg D amp h0 b Hinit Hh0 w1)
    as (a & w2 & E2 & Ha).
  assert (Hadv : adv_out_features cfg = d_num_classes cfg)
    by (unfold adv_out_features; rewrite Hm; reflexivity).
  rewrite Hadv in Ha.
  assert (Hda : List.length (data a) = b * d_num_classes cfg).
  { unfold Discriminator_adv_head, linear in E2.
    rewrite (call_sized _ _ _ _ _ _ _ Hsz E2), Ha.
    unfold numel. cbn [fold_right]. lia. }
  destruct (gather_values_entries b (d_num_classes cfg) (data a)
              (adc_label D adc_fake lab) Hda Hall 0)
    as (v & Ev & Lv & Hv).
  { rewrite adc_label_length. lia. }
  rewrite adc_label_length in Lv.
  exists h0, w1, a, w2.
  eexists. split; [exact E1 |]. split; [exact E2 |]. split; [exact Ha |].
  split.
  - unfold Discriminator_forward. cbv zeta. fold amp. unfold bind at 1.
    rewrite E1. unfold bind at 1. rewrite E2.
    unfold class_conditioning. rewrite HDm, Hm.
    cbn [String.eqb Ascii.eqb Bool.eqb is_2C_family orb].
    unfold bind at 2. unfold lift, index_by_label.
    cbn [torch_squeeze shape data]. rewrite Ha, squeeze_shape_2 by assumption.
    cbn [numel fold_right]. rewrite Ev.
    unfold bind at 1. cbn [ret cv_h cv_adv_output cv_embed cv_proxy
                             cv_cls_output].
    rewrite twin_conditioning_none by (rewrite HDaux; exact Hnt).
    reflexivity.
  - cbn [h adv_output shape data]. split; [reflexivity |].
    split; [rewrite adc_label_length, Hlen; reflexivity |].
    intros i c Hi Hc.
    rewrite (Hv i c); [| rewrite adc_label_length; lia | exact Hc].
    unfold entry2. rewrite Ha. cbn [nth]. f_equal.
Qed.

(** With a single sample the squeeze drops the batch axis as well, and the
    two-index gather of MD has one axis to index. *)
Lemma Discriminator_forward_MD_one_sample (cfg : DiscConfig)
  (D : Discriminator) (x : tensor) (lab : list Z) (eval adc_fake : bool)
  (hh ww : nat) :
  Discriminator_init cfg = Ok D -> d_cond_mtd cfg = "MD" ->
  shape x = [1; 3; hh; ww] -> 8 <= hh -> 8 <= ww ->
  raises (Discriminator_forward engine weights theta D x lab eval adc_fake)
         IndexError.
Proof.
  intros Hinit Hm Hx Hh Hw.
  pose proof (Discriminator_init_fields cfg D Hinit)
    as (_ & _ & _ & _ & _ & HDm & _).
  unfold Discriminator_forward.
  eapply raises_bind_r.
  { eapply Discriminator_pool_returns; eassumption. }
  intros h0 Hh0. eapply raises_bind_r.
  { exact (adv_head_returns cfg D _ h0 1 Hinit Hh0). }
  intros a Ha. cbv zeta. apply raises_bind_l.
  unfold class_conditioning. rewrite HDm, Hm.
  cbn [String.eqb Ascii.eqb Bool.eqb is_2C_family orb].
  apply raises_bind_l. intros w. unfold lift, index_by_label.
  cbn [torch_squeeze shape]. rewrite Ha. unfold squeeze_shape.
  cbn [filter Nat.eqb negb].
  destruct (adv_out_features cfg =? 1); reflexivity.
Qed.

(** The loop over [self.linear2.parameters()] normalises copies that nothing
    reads: with layers that do not depend on the ambient state, the AC branch
    has the outcome of normalising [h] alone and applying [linear2] with the
    weights it stores. *)
Lemma AC_weight_loop_is_dead (amp : bool) (D : Discriminator) (m : Linear)
  (h0 adv : tensor) (lab : list Z) :
  engine_pure engine ->
  D_d_cond_mtd D = "AC" -> D_normalize_d_embed D = true ->
  linear2 D = Some m -> bias m = false ->
  forall w,
    outcome (class_conditioning engine weights theta amp D h0 adv lab w)
    = outcome
        (bind (F_normalize engine theta amp h0)
           (fun h1 =>
              bind (linear engine theta amp m h1)
                (fun c => ret (mkCondVars h1 adv None None (Some c)))) w).
Proof.
  intros Hp Hm Hn Hl2 Hb w.
  assert (Hd : deterministic
                 (bind (F_normalize engine theta amp h0)
                    (fun h1 =>
                       bind (linear engine theta amp m h1)
                         (fun c => ret (mkCondVars h1 adv None None
                                          (Some c)))))).
  { apply deterministic_bind; [apply deterministic_call, Hp |]. intros h1.
    apply deterministic_bind; [apply deterministic_call, Hp |]. intros c.
    apply deterministic_ret. }
  unfold class_conditioning. rewrite Hm, Hn, Hl2.
  cbn [String.eqb Ascii.eqb Bool.eqb opt_parameters opt_linear].
  destruct (normalize_each_weight_returns amp m Hb w) as (u & w1 & En & _).
  unfold bind at 1 2 3. unfold ret at 1. rewrite En.
  exact (Hd w1 w).
Qed.

(** *** Which [h] the bundle carries *)

(** With AC and [normalize_d_embed], on any discriminator whose class head
    accepts what it is given, the [h] of the bundle is the normalised pooled
    feature, not the pooled feature itself. *)
Lemma AC_normalized_h_is_returned (D : Discriminator) (x : tensor)
  (lab : list Z) (eval adc_fake : bool) (w w' : world) (out : DiscOutput) :
  D_d_cond_mtd D = "AC" -> D_normalize_d_embed D = true ->
  Discriminator_forward engine weights theta D x lab eval adc_fake w
  = Ok (out, w') ->
  let amp := D_mixed_precision D && negb eval in
  exists h0 w1 w3 w4,
    Discriminator_pool engine theta amp D x w = Ok (h0, w1) /\
    F_normalize engine theta amp h0 w3 = Ok (h out, w4).
Proof.
  intros Hm Hn. unfold Discriminator_forward. cbv zeta.
  set (amp := D_mixed_precision D && negb eval).
  unfold bind at 1.
  destruct (Discriminator_pool engine theta amp D x w) as [[h0 w1] | e];
    [| discriminate].
  unfold bind at 1.
  destruct (Discriminator_adv_head engine theta amp D h0 w1) as [[a w2] | e];
    [| discriminate].
  unfold class_conditioning. rewrite Hm, Hn.
  cbn [String.eqb Ascii.eqb Bool.eqb].
  unfold bind at 1 2 3 4.
  destruct (opt_parameters weights theta (linear2 D) w2) as [[ps v1] | e];
    [| discriminate].
  unfold bind at 1.
  destruct (normalize_each engine theta amp ps v1) as [[u w3] | e];
    [| discriminate].
  destruct (F_normalize engine theta amp h0 w3) as [[h1 w4] | e] eqn:EF;
    [| discriminate].
  destruct (opt_linear engine theta amp (linear2 D) h1 w4) as [[c v2] | e];
    [| discriminate].
  unfold ret at 1. unfold bind at 1.
  cbn [cv_h cv_adv_output cv_embed cv_proxy cv_cls_output].
  destruct (twin_conditioning engine weights theta amp D h1 _ v2)
    as [[mv v3] | e]; [| discriminate].
  unfold ret. intros H. injection H as <- _. cbn [h].

  exists h0, w1, w3, w4. split; [reflexivity | exact EF].
Qed.

(** Under W/O and MH the [h] of the bundle is the pooled feature. *)
Lemma Discriminator_forward_plain_h (cfg : DiscConfig) (D : Discriminator)
  (x : tensor) (lab : list Z) (eval adc_fake : bool) (w w' : world)
  (out : DiscOutput) :
  Discriminator_init cfg = Ok D ->
  d_cond_mtd cfg = "W/O" \/ d_cond_mtd cfg = "MH" ->
  Discriminator_forward engine weights theta D x lab eval adc_fake w
  = Ok (out, w') ->
  exists w1,
    Discriminator_pool engine theta (D_mixed_precision D && negb eval) D x w
    = Ok (h out, w1).
Proof.
  intros Hinit Hm.
  pose proof (Discriminator_init_fields cfg D Hinit)
    as (_ & _ & _ & _ & _ & HDm & _).
  unfold Discriminator_forward. cbv zeta.
  set (amp := D_mixed_precision D && negb eval).
  unfold bind at 1.
  destruct (Discriminator_pool engine theta amp D x w) as [[h0 w1] | e];
    [| discriminate].
  unfold bind at 1.
  destruct (Discriminator_adv_head engine theta amp D h0 w1) as [[a w2] | e];
    [| discriminate].
  unfold class_conditioning. rewrite HDm.
  destruct Hm as [-> | ->];
    cbn [String.eqb Ascii.eqb Bool.eqb is_2C_family orb];
    unfold bind at 1; unfold ret at 1;
    cbn [cv_h cv_adv_output cv_embed cv_proxy cv_cls_output];
    unfold bind at 1;
    (destruct (twin_conditioning engine weights theta amp D h0 _ w2)
      as [[mv v3] | e]; [| discriminate]);
    unfold ret; intros H; injection H as <- _; cbn [h];
    exists w1; reflexivity.
Qed.

(** *** The class heads and the squeeze at concrete inputs *)

(** C2 at a failing input.  AC with [normalize_d_embed] set, ten classes, a
    batch of four 32 x 32 images: the class head is built for 256 input
    features, and [forward] raises on the 512 pooled ones; no class logits
    are computed. *)
Theorem Discriminator_AC_normalized_logits_raise (lab : list Z)
  (eval adc_fake : bool) (w : world) :
  exists D m,
    Discriminator_init (disc_cfg "AC" "W/O" 10 true) = Ok D /\
    linear2 D = Some m /\ in_features m = 256 /\
    Discriminator_forward engine weights theta D (zeros [4; 3; 32; 32]) lab
      eval adc_fake w
    = Raise RuntimeError.
Proof.
  eexists. eexists. split; [reflexivity |].
  split; [reflexivity |]. split; [reflexivity |].
  eapply (Discriminator_forward_class_head_raises
            (disc_cfg "AC" "W/O" 10 true) _ _ lab eval adc_fake 4 32 32);
    [reflexivity | left; reflexivity | reflexivity | lia | lia].
Qed.

(** C5 at a failing input.  Without class conditioning, a batch of one
    32 x 32 image: [forward] returns a pooled feature of shape (1, 512) and an
    adversarial output with no axis at all, not of shape (1,). *)
Theorem Discriminator_forward_batch_of_one (lab : list Z)
  (eval adc_fake : bool) (w : world) :
  exists D out w',
    Discriminator_init (disc_cfg "W/O" "W/O" 10 false) = Ok D /\
    Discriminator_forward engine weights theta D (zeros [1; 3; 32; 32]) lab
      eval adc_fake w
    = Ok (out, w') /\
    shape (h out) = [1; 512] /\
    shape (adv_output out) = [] /\
    shape (adv_output out) <> [1].
Proof.
  destruct (Discriminator_forward_plain (disc_cfg "W/O" "W/O" 10 false)
              _ (zeros [1; 3; 32; 32]) lab eval adc_fake 1 32 32
              eq_refl (or_introl eq_refl) eq_refl) with (w := w)
    as (out & w' & E & Hh & Ha & _); [lia | lia |].
  eexists. exists out, w'. split; [reflexivity |].
  split; [exact E |]. split; [exact Hh |].
  cbn in Ha. rewrite Ha. split; [reflexivity | discriminate].
Qed.

(** C8 at a failing input.  MD with ten classes, a batch of one 32 x 32
    image with label 3: the adversarial head produces a (1, 10) tensor, and
    [forward] raises instead of returning its entry (0, 3). *)
Theorem Discriminator_MD_batch_of_one (eval adc_fake : bool) (w : world) :
  exists D,
    Discriminator_init (disc_cfg "MD" "W/O" 10 false) = Ok D /\
    out_features (linear1 D) = 10 /\
    Discriminator_forward engine weights theta D (zeros [1; 3; 32; 32])
      [3%Z] eval adc_fake w
    = Raise IndexError.
Proof.
  eexists. split; [reflexivity |]. split; [reflexivity |].
  eapply (Discriminator_forward_MD_one_sample
            (disc_cfg "MD" "W/O" 10 false) _ _ [3%Z] eval adc_fake 32 32);
    [reflexivity | reflexivity | reflexivity | lia | lia].
Qed.

(** C10 at a failing input.  AC with [normalize_d_embed] set and a twin head
    (TAC), ten classes, a batch of two 64 x 64 images: [forward] raises at
    the class head, so no bundle and no [h] field is returned, and the twin
    head is never reached. *)
Theorem Discriminator_AC_normalized_h_raise (lab : list Z)
  (eval adc_fake : bool) (w : world) :
  exists D m mi,
    Discriminator_init (disc_cfg "AC" "TAC" 10 true) = Ok D /\
    linear2 D = Some m /\ in_features m = 256 /\
    linear_mi D = Some mi /\ in_features mi = 256 /\
    Discriminator_forward engine weights theta D (zeros [2; 3; 64; 64]) lab
      eval adc_fake w
    = Raise RuntimeError.
Proof.
  eexists. eexists. eexists. split; [reflexivity |].
  split; [reflexivity |]. split; [reflexivity |].
  split; [reflexivity |]. split; [reflexivity |].
  eapply (Discriminator_forward_class_head_raises
            (disc_cfg "AC" "TAC" 10 true) _ _ lab eval adc_fake 2 64 64);
    [reflexivity | left; reflexivity | reflexivity | lia | lia].
Qed.

(** * Further properties of the two networks *)

(** ** Label recoding and the doubled tables *)





(** ** Construction *)

(** [Generator.__init__] accepts the conditioning methods W/O and cBN and
    raises [NotImplementedError], from the first [GenBlock] it builds, on any
    other one. *)
Theorem Generator_init_accepts (cfg : GenConfig) :
  if (g_cond_mtd cfg =? "W/O")%string || (g_cond_mtd cfg =? "cBN")%string
  then exists G, Generator_init cfg = Ok G
  else Generator_init cfg = Raise NotImplementedError.
Proof.
  unfold Generator_init. cbn [List.length seq Generator_blocks nth].
  unfold GenBlock_init.
  destruct (g_cond_mtd cfg =? "W/O")%string;
    [| destruct (g_cond_mtd cfg =? "cBN")%string]; cbn [orb];
    try reflexivity; eexists; reflexivity.
Qed.

(** The stage sequence of the generator, for any [attn_g_loc]: the three
    blocks in order, each followed by a self-attention module on its output
    channels exactly when [apply_attn] is set and its stage number (1, 2 or 3)
    is in [attn_g_loc]; other numbers in [attn_g_loc] are ignored. *)
Theorem Generator_stage_sequence (cfg : GenConfig) (G : Generator) :
  Generator_init cfg = Ok G ->
  let tail i := if attn_after_g cfg i then [true] else [] in
  let width i c := if attn_after_g cfg i then [c] else [] in
  attn_layout G
  = [false] ++ tail 0 ++ [false] ++ tail 1 ++ [false] ++ tail 2 /\
  g_attn_channels G = width 0 256 ++ width 1 128 ++ width 2 64 /\
  (g_apply_attn cfg = false -> attn_layout G = [false; false; false]) /\
  Forall (fun blocklist => List.length blocklist = 1) (blocks G).
Proof.
  intros Hinit.
  destruct (Generator_init_inv cfg G Hinit)
    as (b0 & b1 & b2 & p0 & p1 & p2 & q0 & q1 & q2 &
        _ & _ & _ & Hbl & _).
  unfold attn_layout, g_attn_channels. rewrite Hbl. cbv zeta.
  assert (Hoff : g_apply_attn cfg = false ->
                 forall i, attn_after_g cfg i = false).
  { intros H i. unfold attn_after_g. rewrite H. apply andb_false_r. }
  repeat split.
  - destruct (attn_after_g cfg 0), (attn_after_g cfg 1),
      (attn_after_g cfg 2); reflexivity.
  - destruct (attn_after_g cfg 0), (attn_after_g cfg 1),
      (attn_after_g cfg 2); reflexivity.
  - intros H. rewrite !(Hoff H). reflexivity.
  - destruct (attn_after_g cfg 0), (attn_after_g cfg 1),
      (attn_after_g cfg 2); cbn [opt_g_attn app];
      repeat constructor.
Qed.

(** The stage sequence of the discriminator follows the same rule, on the
    widths 64, 128 and 256. *)
Theorem Discriminator_stage_sequence (cfg : DiscConfig) (D : Discriminator) :
  Discriminator_init cfg = Ok D ->
  let tail i := if attn_after_d cfg i then [true] else [] in
  let width i c := if attn_after_d cfg i then [c] else [] in
  d_attn_layout D
  = [false] ++ tail 0 ++ [false] ++ tail 1 ++ [false] ++ tail 2 /\
  d_attn_channels D = width 0 64 ++ width 1 128 ++ width 2 256 /\
  (d_apply_attn cfg = false -> d_attn_layout D = [false; false; false]).
Proof.
  intros Hinit.
  destruct (Discriminator_init_fields cfg D Hinit) as (Hbl & _).
  destruct (Discriminator_blocks_layout cfg)
    as (p0 & p1 & p2 & q0 & q1 & q2 & Hlay).
  unfold d_attn_layout, d_attn_channels. rewrite Hbl, Hlay. cbv zeta.
  assert (Hoff : d_apply_attn cfg = false ->
                 forall i, attn_after_d cfg i = false).
  { intros H i. unfold attn_after_d. rewrite H. apply andb_false_r. }
  repeat split.
  - destruct (attn_after_d cfg 0), (attn_after_d cfg 1),
      (attn_after_d cfg 2); reflexivity.
  - destruct (attn_after_d cfg 0), (attn_after_d cfg 1),
      (attn_after_d cfg 2); reflexivity.
  - intros H. rewrite !(Hoff H). reflexivity.
Qed.

(** Which heads [Discriminator.__init__] creates: [linear2] under AC, 2C and
    D2DCE; [embedding] under PD, 2C and D2DCE; the twin [linear_mi] under TAC;
    the twin [embedding_mi] under TAC with 2C or D2DCE; [bn1] without
    spectral normalisation.  Every head reads 256 features. *)
Theorem Discriminator_heads_present (cfg : DiscConfig) (D : Discriminator) :
  Discriminator_init cfg = Ok D ->
  let mtd := d_cond_mtd cfg in
  let tac := (aux_cls_type cfg =? "TAC")%string in
  is_some (linear2 D)
  = (mtd =? "AC")%string || is_2C_family mtd /\
  is_some (embedding D)
  = (mtd =? "PD")%string || is_2C_family mtd /\
  is_some (linear_mi D) = tac /\
  is_some (embedding_mi D) = tac && is_2C_family mtd /\
  is_some (bn1 D) = negb (apply_d_sn cfg) /\
  (forall m, linear2 D = Some m \/ linear_mi D = Some m ->
             in_features m = 256) /\
  (forall e, embedding D = Some e ->
             embedding_dim e
             = if (mtd =? "PD")%string then 256 else d_embed_dim cfg).
Proof.
  unfold Discriminator_init, is_2C_family. cbv zeta.
  destruct (String.eqb_spec (d_cond_mtd cfg) "AC") as [E | _];
    [rewrite E |
     destruct (String.eqb_spec (d_cond_mtd cfg) "PD") as [E | _];
       [rewrite E |
        destruct (String.eqb_spec (d_cond_mtd cfg) "2C") as [E | _];
          [rewrite E |
           destruct (String.eqb_spec (d_cond_mtd cfg) "D2DCE") as [E | _];
             [rewrite E |]]]];
    cbn [String.eqb Ascii.eqb Bool.eqb orb andb negb];
    destruct (aux_cls_type cfg =? "TAC")%string;
    destruct (apply_d_sn cfg);
    intros H; try discriminate H; injection H as <-;
    cbn [is_some linear2 embedding linear_mi embedding_mi bn1 orb andb negb
           last];
    repeat split;
    try (intros m [H | H]; try discriminate H; injection H as <-;
         reflexivity);
    try (intros e H; try discriminate H; injection H as <-; reflexivity).
Qed.

(** ** Which errors the forward passes can raise *)

Ltac shape_errors :=
  repeat match goal with
         | |- context [match ?x with _ => _ end] => destruct x
         end;
  intros H; first [discriminate H | injection H as <-];
  first [left; reflexivity | right; reflexivity].

Lemma linear_shape_errors (m : Linear) (s : list nat) (e : exn) :
  linear_shape m s = Raise e -> engine_error e.
Proof. unfold linear_shape. shape_errors. Qed.

Lemma conv2d_shape_errors (m : Conv) (s : list nat) (e : exn) :
  conv2d_shape m s = Raise e -> engine_error e.
Proof. unfold conv2d_shape. shape_errors. Qed.

Lemma deconv2d_shape_errors (m : Conv) (s : list nat) (e : exn) :
  deconv2d_shape m s = Raise e -> engine_error e.
Proof. unfold deconv2d_shape. shape_errors. Qed.

Lemma bn_shape_errors (f : nat) (s : list nat) (e : exn) :
  bn_shape f s = Raise e -> engine_error e.
Proof. unfold bn_shape. shape_errors. Qed.

Lemma cbn_shape_errors (m : CondBatchNorm) (lab : list Z) (s : list nat)
  (e : exn) :
  cbn_shape m lab s = Raise e -> engine_error e.
Proof. unfold cbn_shape. shape_errors. Qed.

Lemma attn_shape_errors (m : SelfAttention) (s : list nat) (e : exn) :
  attn_shape m s = Raise e -> engine_error e.
Proof. unfold attn_shape. shape_errors. Qed.

Lemma embedding_shape_errors (m : Embedding) (lab : list Z) (e : exn) :
  embedding_shape m lab = Raise e -> engine_error e.
Proof. unfold embedding_shape. shape_errors. Qed.

Lemma sum_hw_shape_errors (s : list nat) (e : exn) :
  sum_hw_shape s = Raise e -> engine_error e.
Proof. unfold sum_hw_shape. shape_errors. Qed.

Lemma sum1_shape_errors (s : list nat) (e : exn) :
  sum1_shape s = Raise e -> engine_error e.
Proof. unfold sum1_shape. shape_errors. Qed.

Lemma normalize_shape_errors (s : list nat) (e : exn) :
  normalize_shape s = Raise e -> engine_error e.
Proof. unfold normalize_shape. shape_errors. Qed.

Lemma broadcast_rev_errors (a b : list nat) (e : exn) :
  broadcast_rev a b = Raise e -> engine_error e.
Proof.
  revert b. induction a as [| x a IH]; intros [| y b]; cbn [broadcast_rev];
    try discriminate.
  specialize (IH b). destruct (broadcast_rev a b) as [r | e0].
  - shape_errors.
  - intros H. injection H as <-. apply IH. reflexivity.
Qed.

Lemma broadcast_shape_errors (a b : list nat) (e : exn) :
  broadcast_shape a b = Raise e -> engine_error e.
Proof.
  unfold broadcast_shape.
  pose proof (broadcast_rev_errors (rev a) (rev b)) as H.
  destruct (broadcast_rev (rev a) (rev b)) as [r | e0]; [discriminate |].
  intros E. injection E as <-. apply H. reflexivity.
Qed.

Lemma gather_values_errors (d0 d1 sz : nat) (dat : list R) (lab : list Z)
  (e : exn) :
  forall i, gather_values d0 d1 sz dat i lab = Raise e -> engine_error e.
Proof.
  induction lab as [| l ls IH]; intros i; cbn [gather_values];
    [discriminate |].
  destruct (i <? d0); [| intros H; injection H as <-; right; reflexivity].
  destruct (wrap_index d1 l);
    [| intros H; injection H as <-; right; reflexivity].
  specialize (IH (S i)).
  destruct (gather_values d0 d1 sz dat (S i) ls) as [r | e0];
    [discriminate |].
  intros H. injection H as <-. apply IH. reflexivity.
Qed.

Lemma index_by_label_errors (t : tensor) (lab : list Z) (e : exn) :
  index_by_label t lab = Raise e -> engine_error e.
Proof.
  unfold index_by_label. destruct (shape t) as [| d0 [| d1 rest]];
    try (intros H; injection H as <-; right; reflexivity).
  pose proof (gather_values_errors d0 d1 (numel rest) (data t) lab) as G.
  destruct (gather_values d0 d1 (numel rest) (data t) 0 lab) as [r | e0] eqn:E;
    [discriminate |].
  intros H. injection H as <-. apply (G e0 0 E).
Qed.

Lemma view_rows_errors (t : tensor) (dims : list nat) (e : exn) :
  view_rows t dims = Raise e -> engine_error e.
Proof. unfold view_rows. shape_errors. Qed.

Lemma raises_within_ret {A : Type} (ok : exn -> Prop) (a : A) :
  raises_within (world := world) ok (ret a).
Proof. intros w e H. discriminate H. Qed.

Lemma raises_within_lift {A : Type} (ok : exn -> Prop) (r : Res A) :
  (forall e, r = Raise e -> ok e) ->
  raises_within (world := world) ok (lift r).
Proof.
  intros Hr w e. unfold lift. destruct r as [a | e0]; [discriminate |].
  intros H. injection H as <-. apply Hr. reflexivity.
Qed.

Lemma raises_within_bind {A B : Type} (ok : exn -> Prop) (c : M world A)
  (k : A -> M world B) :
  raises_within ok c -> (forall a, raises_within ok (k a)) ->
  raises_within ok (bind c k).
Proof.
  intros Hc Hk w e. unfold bind. specialize (Hc w).
  destruct (c w) as [[a w1] | e0].
  - apply Hk.
  - intros H. injection H as <-. apply Hc. reflexivity.
Qed.

Lemma raises_within_call (ok : exn -> Prop) (amp : bool) (o : op)
  (args : list tensor) (r : Res (list nat)) :
  (forall e, r = Raise e -> ok e) ->
  raises_within ok (call engine theta amp o args r).
Proof.
  intros Hr w e. unfold call. destruct r as [s | e0].
  - destruct (engine theta amp o args s w). discriminate.
  - intros H. injection H as <-. apply Hr. reflexivity.
Qed.

Lemma raises_within_run_stages {S : Type} (ok : exn -> Prop)
  (f : S -> tensor -> M world tensor) (l : list S) :
  (forall s, In s l -> forall x, raises_within ok (f s x)) ->
  forall x, raises_within ok (run_stages f l x).
Proof.
  induction l as [| s l IH]; intros Hf x; cbn [run_stages].
  - apply raises_within_ret.
  - apply raises_within_bind; [apply Hf; left; reflexivity |].
    intros t. apply IH. intros s' Hs'. apply Hf. right. exact Hs'.
Qed.

Ltac engine_only :=
  first
    [ apply raises_within_ret
    | apply raises_within_call;
      first [ apply linear_shape_errors | apply conv2d_shape_errors
            | apply deconv2d_shape_errors | apply bn_shape_errors
            | apply cbn_shape_errors | apply attn_shape_errors
            | apply embedding_shape_errors | apply sum_hw_shape_errors
            | apply sum1_shape_errors | apply normalize_shape_errors
            | apply broadcast_shape_errors | discriminate ]
    | apply raises_within_lift;
      first [ apply index_by_label_errors | apply view_rows_errors ]
    | apply raises_within_bind; [| intros ? ] ].

(** ** Generator *)

Lemma GenBlock_init_consistent (cin cout classes pos : nat) (mtd : string)
  (b : GenBlock) :
  GenBlock_init cin cout mtd classes pos = Ok b ->
  gen_block_consistent b /\ gb_g_cond_mtd b = mtd.
Proof.
  unfold GenBlock_init, gen_block_consistent.
  destruct (String.eqb_spec mtd "W/O") as [-> | _];
    [| destruct (String.eqb_spec mtd "cBN") as [-> | _]; [| discriminate]];
    intros H; injection H as <-; cbn [gb_g_cond_mtd gb_bn0].
  - split; [left; split; [reflexivity | eexists; reflexivity] | reflexivity].
  - split; [right; split; [reflexivity | eexists; reflexivity] | reflexivity].
Qed.

Lemma Generator_init_stages (cfg : GenConfig) (G : Generator) :
  Generator_init cfg = Ok G ->
  Forall (Forall (fun s => gen_stage_consistent s /\
                           forall b, s = GBlock b ->
                                     gb_g_cond_mtd b = g_cond_mtd cfg))
         (blocks G).
Proof.
  intros Hinit.
  destruct (Generator_init_inv cfg G Hinit)
    as (b0 & b1 & b2 & p0 & p1 & p2 & q0 & q1 & q2 &
        H0 & H1 & H2 & Hbl & _).
  apply GenBlock_init_consistent in H0, H1, H2.
  destruct H0 as [C0 M0], H1 as [C1 M1], H2 as [C2 M2].
  rewrite Hbl.
  destruct (attn_after_g cfg 0), (attn_after_g cfg 1), (attn_after_g cfg 2);
    cbn [opt_g_attn app];
    repeat (apply Forall_cons || apply Forall_nil);
    (split; [first [exact C0 | exact C1 | exact C2 | exact I] |]);
    intros b Hb; first [discriminate Hb | injection Hb as <-; assumption].
Qed.

Lemma GenBlock_forward_engine_errors (amp : bool) (b : GenBlock) (x : tensor)
  (lab : list Z) :
  gen_block_consistent b ->
  raises_within engine_error (GenBlock_forward engine theta amp b x lab).
Proof.
  intros [[Hm [m Hn]] | [Hm [m Hn]]]; unfold GenBlock_forward;
    rewrite Hm, Hn; cbn [String.eqb Ascii.eqb Bool.eqb norm_call];
    unfold deconv2d, bn, cbn, activation; repeat engine_only.
Qed.

(** On a constructed generator [forward] raises nothing of its own: the
    branch [raise NotImplementedError] of [GenBlock.forward] is unreachable,
    and the only errors are those of the tensor engine (a shape that does not
    fit, a label that is no row of a class table). *)
Theorem Generator_forward_engine_errors_only (cfg : GenConfig)
  (G : Generator) (z : tensor) (lab : list Z) (eval : bool) (w : world)
  (e : exn) :
  Generator_init cfg = Ok G ->
  Generator_forward engine theta G z lab eval w = Raise e ->
  e = RuntimeError \/ e = IndexError.
Proof.
  intros Hinit. pose proof (Generator_init_stages cfg G Hinit) as Hst.
  revert w e. change (raises_within engine_error
                        (Generator_forward engine theta G z lab eval)).
  unfold Generator_forward. cbv zeta. unfold linear, conv2d.
  apply raises_within_bind; [engine_only |]. intros t1.
  apply raises_within_bind; [engine_only |]. intros t2.
  apply raises_within_bind; [| intros t3; repeat engine_only].
  apply raises_within_run_stages. intros blocklist Hbl x.
  apply raises_within_run_stages. intros s Hs y.
  rewrite Forall_forall in Hst. specialize (Hst blocklist Hbl).
  rewrite Forall_forall in Hst. destruct (Hst s Hs) as [Hc _].
  destruct s as [b | a]; cbn [gen_stage_forward].
  - apply GenBlock_forward_engine_errors. exact Hc.
  - unfold attention. engine_only.
Qed.

Lemma run_stages_ext {S : Type} (f g : S -> tensor -> M world tensor)
  (l : list S) :
  (forall s, In s l -> forall x w, f s x w = g s x w) ->
  forall x w, run_stages f l x w = run_stages g l x w.
Proof.
  induction l as [| s l IH]; intros Hfg x w; cbn [run_stages];
    [reflexivity |].
  unfold bind. rewrite (Hfg s (or_introl eq_refl)).
  destruct (g s x w) as [[t w1] | e]; [| reflexivity].
  apply IH. intros s' Hs'. apply Hfg. right. exact Hs'.
Qed.

(** Without class-conditional normalisation the generator is unconditional:
    [forward] does not read the label at all, whatever its values and its
    length. *)
Theorem Generator_forward_ignores_label (cfg : GenConfig) (G : Generator)
  (z : tensor) (lab1 lab2 : list Z) (eval : bool) (w : world) :
  Generator_init cfg = Ok G -> g_cond_mtd cfg = "W/O" ->
  Generator_forward engine theta G z lab1 eval w
  = Generator_forward engine theta G z lab2 eval w.
Proof.
  intros Hinit Hm. pose proof (Generator_init_stages cfg G Hinit) as Hst.
  unfold Generator_forward. cbv zeta. unfold bind at 1 5.
  destruct (linear engine theta _ (linear0 G) z w) as [[t1 w1] | e];
    [| reflexivity].
  unfold bind at 1 4.
  destruct (lift (view_rows t1 _) w1) as [[t2 w2] | e]; [| reflexivity].
  unfold bind at 1 3.
  rewrite (run_stages_ext
             (fun blocklist =>
                run_stages (gen_stage_forward engine theta
                              (G_mixed_precision G && negb eval) lab1)
                  blocklist)
             (fun blocklist =>
                run_stages (gen_stage_forward engine theta
                              (G_mixed_precision G && negb eval) lab2)
                  blocklist)); [reflexivity |].
  intros blocklist Hbl x v. apply run_stages_ext. intros s Hs y u.
  rewrite Forall_forall in Hst. specialize (Hst blocklist Hbl).
  rewrite Forall_forall in Hst. destruct (Hst s Hs) as [_ Hmtd].
  destruct s as [b | a]; cbn [gen_stage_forward]; [| reflexivity].
  unfold GenBlock_forward. rewrite (Hmtd b eq_refl), Hm.
  cbn [String.eqb Ascii.eqb Bool.eqb]. reflexivity.
Qed.

(** A latent batch whose width is not [z_dim] is rejected by the first
    layer. *)
Theorem Generator_forward_latent_width (cfg : GenConfig) (G : Generator)
  (z : tensor) (lab : list Z) (eval : bool) (b k : nat) (w : world) :
  Generator_init cfg = Ok G ->
  shape z = [b; k] -> k <> z_dim cfg ->
  Generator_forward engine theta G z lab eval w = Raise RuntimeError.
Proof.
  intros Hinit Hz Hk.
  destruct (Generator_init_inv cfg G Hinit)
    as (_ & _ & _ & _ & _ & _ & _ & _ & _ & _ & _ & _ & _ & _ & Hl0 & _).
  revert w. change (raises (Generator_forward engine theta G z lab eval)
                      RuntimeError).
  unfold Generator_forward. cbv zeta. apply raises_bind_l.
  eapply linear_raises_mismatch; [exact Hz |]. rewrite Hl0. exact Hk.
Qed.

(** One generator block doubles the height and the width of the map it is
    given and takes its channels from [in_channels] to [out_channels]. *)
Theorem GenBlock_forward_doubles (amp : bool) (cin cout classes pos : nat)
  (mtd : string) (blk : GenBlock) (x : tensor) (lab : list Z) (b hh ww : nat)
  (w : world) :
  GenBlock_init cin cout mtd classes pos = Ok blk ->
  shape x = [b; cin; hh; ww] -> 1 <= hh -> 1 <= ww ->
  labels_ok classes b lab ->
  exists out w',
    GenBlock_forward engine theta amp blk x lab w = Ok (out, w') /\
    shape out = [b; cout; 2 * hh; 2 * ww].
Proof.
  intros Hinit Hx Hh Hw Hl.
  exact (GenBlock_forward_returns amp cin cout classes pos mtd blk x lab b
           hh ww Hinit Hx Hh Hw Hl w).
Qed.

(** ** Discriminator: blocks and pooling *)


Lemma conv2d_shape_small_3 (st : site) (cin cout b hh ww : nat) :
  hh = 0 \/ ww = 0 ->
  conv2d_shape (mkConv st cin cout 3 1 1) [b; cin; hh; ww]
  = Raise RuntimeError.
Proof.
  intros H. unfold conv2d_shape.
  cbn [in_channels out_channels kernel_size stride padding].
  destruct (3 <=? hh + 2 * 1) eqn:E1; destruct (3 <=? ww + 2 * 1) eqn:E2;
    rewrite ?andb_false_r; try reflexivity.
  apply Nat.leb_le in E1, E2. lia.
Qed.

Lemma conv2d_shape_small_4 (st : site) (cin cout b hh ww : nat) :
  hh < 2 \/ ww < 2 ->
  conv2d_shape (mkConv st cin cout 4 2 1) [b; cin; hh; ww]
  = Raise RuntimeError.
Proof.
  intros H. unfold conv2d_shape.
  cbn [in_channels out_channels kernel_size stride padding].
  destruct (4 <=? hh + 2 * 1) eqn:E1; destruct (4 <=? ww + 2 * 1) eqn:E2;
    rewrite ?andb_false_r; try reflexivity.
  apply Nat.leb_le in E1, E2. lia.
Qed.

Lemma DiscBlock_forward_small (amp sn : bool) (cin cout pos : nat)
  (x : tensor) (b hh ww : nat) :
  shape x = [b; cin; hh; ww] -> hh < 2 \/ ww < 2 ->
  raises (DiscBlock_forward engine theta amp (DiscBlock_init cin cout sn pos) x)
         RuntimeError.
Proof.
  intros Hx Hs. unfold DiscBlock_forward, DiscBlock_init.
  cbn [db_conv0 db_conv1 db_bn0 db_bn1 db_apply_d_sn].
  destruct (Nat.eq_dec hh 0) as [H0 | H0];
    [| destruct (Nat.eq_dec ww 0) as [W0 | W0]].
  - apply raises_bind_l, raises_call. rewrite Hx.
    apply conv2d_shape_small_3. left. exact H0.
  - apply raises_bind_l, raises_call. rewrite Hx.
    apply conv2d_shape_small_3. right. exact W0.
  - eapply raises_bind_r.
    { apply returns_call. rewrite Hx. apply conv2d_shape_same; lia. }
    intros t1 H1. eapply raises_bind_r.
    { apply opt_bn_returns, H1. }
    intros t2 H2. eapply raises_bind_r.
    { apply returns_call. rewrite H2. reflexivity. }
    intros t3 H3. apply raises_bind_l, raises_call. rewrite H3.
    apply conv2d_shape_small_4. exact Hs.
Qed.

Lemma raises_run_stages_app_l {S : Type} (f : S -> tensor -> M world tensor)
  (l1 l2 : list S) (x : tensor) (e : exn) :
  raises (run_stages f l1 x) e -> raises (run_stages f (l1 ++ l2) x) e.
Proof.
  intros H w. rewrite run_stages_app. unfold bind. rewrite (H w). reflexivity.
Qed.

Lemma raises_run_stages_app_r {S : Type} (f : S -> tensor -> M world tensor)
  (l1 l2 : list S) (x : tensor) (P : tensor -> Prop) (e : exn) :
  returns (run_stages f l1 x) P ->
  (forall t, P t -> raises (run_stages f l2 t) e) ->
  raises (run_stages f (l1 ++ l2) x) e.
Proof.
  intros H1 H2 w. rewrite run_stages_app.
  exact (raises_bind_r _ _ P e H1 H2 w).
Qed.

Lemma raises_run_stages_one {S : Type} (f : S -> tensor -> M world tensor)
  (s : S) (x : tensor) (e : exn) :
  raises (f s x) e -> raises (run_stages f [s] x) e.
Proof.
  intros H. cbn [run_stages]. apply raises_bind_l. exact H.
Qed.

Lemma d_block_stage_small (amp sn : bool) (cin cout pos : nat)
  (x : tensor) (b hh ww : nat) :
  shape x = [b; cin; hh; ww] -> hh < 2 \/ ww < 2 ->
  raises (run_stages (fun blocklist =>
                        run_stages (disc_stage_forward engine theta amp)
                          blocklist)
            [[DBlock (DiscBlock_init cin cout sn pos)]] x)
         RuntimeError.
Proof.
  intros Hx Hs. apply raises_run_stages_one, raises_run_stages_one.
  cbn [disc_stage_forward]. eapply DiscBlock_forward_small; eassumption.
Qed.

(** An image with a side below 8 does not survive the three halvings: one
    of the blocks raises. *)
Lemma Discriminator_pool_small (cfg : DiscConfig) (D : Discriminator)
  (amp : bool) (x : tensor) (b hh ww : nat) :
  Discriminator_init cfg = Ok D ->
  shape x = [b; 3; hh; ww] -> hh < 8 \/ ww < 8 ->
  raises (Discriminator_pool engine theta amp D x) RuntimeError.
Proof.
  intros Hinit Hx Hs.
  destruct (Discriminator_init_fields cfg D Hinit) as (Hbl & _).
  destruct (Discriminator_blocks_layout cfg)
    as (p0 & p1 & p2 & q0 & q1 & q2 & Hlay).
  unfold Discriminator_pool. rewrite Hbl, Hlay. apply raises_bind_l.
  destruct (Nat.lt_ge_cases hh 2) as [A | A];
    [apply raises_run_stages_app_l, (d_block_stage_small _ _ _ _ _ _ b hh ww);
     [exact Hx | left; exact A] |].
  destruct (Nat.lt_ge_cases ww 2) as [B | B];
    [apply raises_run_stages_app_l, (d_block_stage_small _ _ _ _ _ _ b hh ww);
     [exact Hx | right; exact B] |].
  eapply raises_run_stages_app_r.
  { apply d_block_stage_returns; [exact Hx | exact A | exact B]. }
  intros t1 H1. eapply raises_run_stages_app_r.
  { apply opt_d_attn_returns, H1. }
  intros t2 H2.
  destruct (Nat.lt_ge_cases (hh / 2) 2) as [A2 | A2];
    [apply raises_run_stages_app_l,
       (d_block_stage_small _ _ _ _ _ _ b (hh / 2) (ww / 2));
     [exact H2 | left; exact A2] |].
  destruct (Nat.lt_ge_cases (ww / 2) 2) as [B2 | B2];
    [apply raises_run_stages_app_l,
       (d_block_stage_small _ _ _ _ _ _ b (hh / 2) (ww / 2));
     [exact H2 | right; exact B2] |].
  eapply raises_run_stages_app_r.
  { apply d_block_stage_returns; [exact H2 | exact A2 | exact B2]. }
  intros t3 H3. eapply raises_run_stages_app_r.
  { apply opt_d_attn_returns, H3. }
  intros t4 H4.
  apply raises_run_stages_app_l,
    (d_block_stage_small _ _ _ _ _ _ b (hh / 2 / 2) (ww / 2 / 2));
    [exact H4 |].
  destruct Hs as [Hs | Hs]; [left | right];
    apply Nat.Div0.div_lt_upper_bound, Nat.Div0.div_lt_upper_bound; lia.
Qed.


(** ** Discriminator: what the bundle holds *)

Lemma Discriminator_forward_small (cfg : DiscConfig) (D : Discriminator)
  (x : tensor) (lab : list Z) (eval adc_fake : bool) (b hh ww : nat) :
  Discriminator_init cfg = Ok D -> shape x = [b; 3; hh; ww] ->
  hh < 8 \/ ww < 8 ->
  raises (Discriminator_forward engine weights theta D x lab eval adc_fake)
         RuntimeError.
Proof.
  intros Hinit Hx Hs. unfold Discriminator_forward. cbv zeta.
  apply raises_bind_l. eapply Discriminator_pool_small; eassumption.
Qed.

(** Under W/O, MH and MD a returned bundle has the pooled feature as [h] and
    none of the six conditioning outputs. *)
Lemma Discriminator_forward_unconditioned_fields (cfg : DiscConfig)
  (D : Discriminator) (x : tensor) (lab : list Z) (eval adc_fake : bool)
  (w w' : world) (out : DiscOutput) :
  Discriminator_init cfg = Ok D ->
  d_cond_mtd cfg = "W/O" \/ d_cond_mtd cfg = "MH" \/ d_cond_mtd cfg = "MD" ->
  Discriminator_forward engine weights theta D x lab eval adc_fake w
  = Ok (out, w') ->
  (exists w1,
     Discriminator_pool engine theta (D_mixed_precision D && negb eval) D x w
     = Ok (h out, w1)) /\
  embed out = None /\ proxy out = None /\ cls_output out = None /\
  mi_embed out = None /\ mi_proxy out = None /\ mi_cls_output out = None.
Proof.
  intros Hinit Hm.
  pose proof (Discriminator_init_fields cfg D Hinit)
    as (_ & _ & _ & _ & _ & HDm & HDaux & _).
  assert (Htw : twin_d_cond_mtd (d_cond_mtd cfg) = false)
    by (destruct Hm as [-> | [-> | ->]]; reflexivity).
  pose proof (init_plain_no_twin cfg D Hinit Htw) as Hnt.
  rewrite <- HDaux in Hnt.
  unfold Discriminator_forward. cbv zeta.
  set (amp := D_mixed_precision D && negb eval).
  unfold bind at 1.
  destruct (Discriminator_pool engine theta amp D x w) as [[h0 w1] | e];
    [| discriminate].
  unfold bind at 1.
  destruct (Discriminator_adv_head engine theta amp D h0 w1) as [[a w2] | e];
    [| discriminate].
  unfold class_conditioning. rewrite HDm.
  destruct Hm as [-> | [-> | ->]];
    cbn [String.eqb Ascii.eqb Bool.eqb is_2C_family orb].
  - unfold bind at 1. unfold ret at 1.
    cbn [cv_h cv_adv_output cv_embed cv_proxy cv_cls_output].
    rewrite twin_conditioning_none by exact Hnt.
    unfold bind, ret. intros H. injection H as <- _.
    cbn [h embed proxy cls_output mi_embed mi_proxy mi_cls_output
           mv_embed mv_proxy mv_cls_output].
    repeat split. exists w1. reflexivity.
  - unfold bind at 1. unfold ret at 1.
    cbn [cv_h cv_adv_output cv_embed cv_proxy cv_cls_output].
    rewrite twin_conditioning_none by exact Hnt.
    unfold bind, ret. intros H. injection H as <- _.
    cbn [h embed proxy cls_output mi_embed mi_proxy mi_cls_output
           mv_embed mv_proxy mv_cls_output].
    repeat split. exists w1. reflexivity.
  - unfold bind at 1 2.
    destruct (lift (index_by_label (torch_squeeze a) _) w2)
      as [[g w3] | e]; [| discriminate].
    unfold ret at 1.
    cbn [cv_h cv_adv_output cv_embed cv_proxy cv_cls_output].
    rewrite twin_conditioning_none by exact Hnt.
    unfold bind, ret. intros H. injection H as <- _.
    cbn [h embed proxy cls_output mi_embed mi_proxy mi_cls_output
           mv_embed mv_proxy mv_cls_output].
    repeat split. exists w1. reflexivity.
Qed.

(** Whatever the configuration, a bundle that [forward] returns on a batch
    of three-channel images was computed under W/O, MH or MD: its [h] is the
    pooled feature and its six conditioning outputs ([embed], [proxy],
    [cls_output] and their [mi_] twins) are all absent.  Under every
    method that has a class head, [forward] raises instead. *)
Theorem Discriminator_bundle_without_class_outputs (cfg : DiscConfig)
  (D : Discriminator) (x : tensor) (lab : list Z) (eval adc_fake : bool)
  (b hh ww : nat) (w w' : world) (out : DiscOutput) :
  Discriminator_init cfg = Ok D -> shape x = [b; 3; hh; ww] ->
  Discriminator_forward engine weights theta D x lab eval adc_fake w
  = Ok (out, w') ->
  (d_cond_mtd cfg = "W/O" \/ d_cond_mtd cfg = "MH" \/ d_cond_mtd cfg = "MD")
  /\ (exists w1,
        Discriminator_pool engine theta (D_mixed_precision D && negb eval)
          D x w = Ok (h out, w1))
  /\ embed out = None /\ proxy out = None /\ cls_output out = None
  /\ mi_embed out = None /\ mi_proxy out = None /\ mi_cls_output out = None.
Proof.
  intros Hinit Hx E.
  assert (Hbig : 8 <= hh /\ 8 <= ww).
  { destruct (Nat.lt_ge_cases hh 8) as [A | A];
      [rewrite (Discriminator_forward_small cfg D x lab eval adc_fake b hh ww
                  Hinit Hx (or_introl A) w) in E; discriminate E |].
    destruct (Nat.lt_ge_cases ww 8) as [B | B];
      [rewrite (Discriminator_forward_small cfg D x lab eval adc_fake b hh ww
                  Hinit Hx (or_intror B) w) in E; discriminate E |].
    split; assumption. }
  destruct Hbig as [Hh Hw].
  assert (Hm : d_cond_mtd cfg = "W/O" \/ d_cond_mtd cfg = "MH"
               \/ d_cond_mtd cfg = "MD").
  { destruct (String.eqb_spec (d_cond_mtd cfg) "W/O") as [A | NA];
      [left; exact A |].
    destruct (String.eqb_spec (d_cond_mtd cfg) "MH") as [B | NB];
      [right; left; exact B |].
    destruct (String.eqb_spec (d_cond_mtd cfg) "MD") as [C | NC];
      [right; right; exact C |].
    exfalso.
    destruct (String.eqb_spec (d_cond_mtd cfg) "AC") as [A1 | N1];
      [rewrite (Discriminator_forward_class_head_raises cfg D x lab eval
                  adc_fake b hh ww Hinit (or_introl A1) Hx Hh Hw w) in E;
       discriminate E |].
    destruct (String.eqb_spec (d_cond_mtd cfg) "2C") as [A2 | N2];
      [rewrite (Discriminator_forward_class_head_raises cfg D x lab eval
                  adc_fake b hh ww Hinit (or_intror (or_introl A2)) Hx Hh Hw
                  w) in E; discriminate E |].
    destruct (String.eqb_spec (d_cond_mtd cfg) "D2DCE") as [A3 | N3];
      [rewrite (Discriminator_forward_class_head_raises cfg D x lab eval
                  adc_fake b hh ww Hinit (or_intror (or_intror A3)) Hx Hh Hw
                  w) in E; discriminate E |].
    destruct (String.eqb_spec (d_cond_mtd cfg) "PD") as [A4 | N4];
      [rewrite (Discriminator_forward_PD_raises cfg D x lab eval adc_fake
                  b hh ww Hinit A4 Hx Hh Hw w) in E; discriminate E |].
    rewrite (Discriminator_forward_unknown cfg D x lab eval adc_fake b hh ww
               Hinit) in E; try assumption; [discriminate E |].
    unfold known_d_cond_mtd.
    apply String.eqb_neq in NA, NB, NC, N1, N2, N3, N4.
    rewrite NA, NB, NC, N1, N2, N3, N4. reflexivity. }
  split; [exact Hm |].
  exact (Discriminator_forward_unconditioned_fields cfg D x lab eval adc_fake
           w w' out Hinit Hm E).
Qed.

(** ** Discriminator: the adversarial output *)

(** With at least two samples, [forward] without class conditioning returns
    one score per sample, and under MH (with at least one class) one row of
    [1 + num_classes] scores per sample. *)
Theorem Discriminator_forward_scores (cfg : DiscConfig) (D : Discriminator)
  (x : tensor) (lab : list Z) (eval adc_fake : bool) (b hh ww : nat)
  (w : world) :
  Discriminator_init cfg = Ok D ->
  d_cond_mtd cfg = "W/O"
  \/ (d_cond_mtd cfg = "MH" /\ 1 <= d_num_classes cfg) ->
  shape x = [b; 3; hh; ww] -> 8 <= hh -> 8 <= ww -> 2 <= b ->
  exists out w',
    Discriminator_forward engine weights theta D x lab eval adc_fake w
    = Ok (out, w') /\
    shape (h out) = [b; 512] /\
    shape (adv_output out)
    = (if (d_cond_mtd cfg =? "MH")%string then [b; 1 + d_num_classes cfg]
       else [b]).
Proof.
  intros Hinit Hm Hx Hh Hw Hb.
  assert (Hm' : d_cond_mtd cfg = "W/O" \/ d_cond_mtd cfg = "MH")
    by (destruct Hm as [A | [A _]]; [left | right]; exact A).
  destruct (Discriminator_forward_plain cfg D x lab eval adc_fake b hh ww
              Hinit Hm' Hx Hh Hw w) as (out & w' & E & Hs & Ha & _).
  exists out, w'. split; [exact E |]. split; [exact Hs |].
  rewrite Ha. unfold adv_out_features, squeeze_shape.
  destruct Hm as [A | [A Hn]]; rewrite A;
    cbn [String.eqb Ascii.eqb Bool.eqb filter].
  - replace (b =? 1) with false by (symmetry; apply Nat.eqb_neq; lia).
    reflexivity.
  - replace (b =? 1) with false by (symmetry; apply Nat.eqb_neq; lia).
    replace (1 + d_num_classes cfg =? 1) with false
      by (symmetry; apply Nat.eqb_neq; lia).
    reflexivity.
Qed.

(** Under MD, with at least two samples and two classes, the score returned
    for sample [i] is entry (i, label[i]) of the tensor the adversarial head
    produced; a negative label counts from the last column, and the label is
    the recoded one under ADC. *)
Theorem Discriminator_MD_gather (cfg : DiscConfig) (D : Discriminator)
  (x : tensor) (lab : list Z) (eval adc_fake : bool) (b hh ww : nat)
  (w : world) :
  engine_sized engine ->
  Discriminator_init cfg = Ok D -> d_cond_mtd cfg = "MD" ->
  shape x = [b; 3; hh; ww] -> 8 <= hh -> 8 <= ww ->
  2 <= b -> 2 <= d_num_classes cfg -> List.length lab = b ->
  Forall (fun l => wrap_index (d_num_classes cfg) l <> None)
         (adc_label D adc_fake lab) ->
  exists h0 w1 a w2 out,
    Discriminator_pool engine theta (D_mixed_precision D && negb eval) D x w
    = Ok (h0, w1) /\
    Discriminator_adv_head engine theta (D_mixed_precision D && negb eval)
      D h0 w1 = Ok (a, w2) /\
    shape a = [b; d_num_classes cfg] /\
    Discriminator_forward engine weights theta D x lab eval adc_fake w
    = Ok (out, w2) /\
    shape (adv_output out) = [b] /\
    forall i c, i < b ->
      wrap_index (d_num_classes cfg) (nth i (adc_label D adc_fake lab) 0%Z)
      = Some c ->
      nth i (data (adv_output out)) 0%R = entry2 a i c.
Proof.
  intros Hsz Hinit Hm Hx Hh Hw Hb Hn Hlen Hall.
  destruct (Discriminator_forward_MD cfg D x lab eval adc_fake b hh ww
              Hsz Hinit Hm Hx Hh Hw Hb Hn Hlen Hall w)
    as (h0 & w1 & a & w2 & out & E1 & E2 & Ha & E & _ & Hs & Hv).
  exists h0, w1, a, w2, out. repeat split; assumption.
Qed.



(** ** Discriminator: the methods with a class head *)


(** ** Discriminator: [forward] reads no attribute that construction left out *)








(** ** Discriminator: the weight normalisation of AC *)

(** With [normalize_d_embed] set, the loop over the parameters of [linear2]
    changes nothing that [forward] computes afterwards: when the layers do not
    depend on the ambient state, the AC branch has the outcome of normalising
    [h] alone and applying [linear2] with the weights it stores.  This holds
    for any discriminator whose class head has no bias, whatever its width. *)
Theorem AC_weight_normalisation_is_discarded (amp : bool) (D : Discriminator)
  (m : Linear) (h0 adv : tensor) (lab : list Z) (w : world) :
  engine_pure engine ->
  D_d_cond_mtd D = "AC" -> D_normalize_d_embed D = true ->
  linear2 D = Some m -> bias m = false ->
  outcome (class_conditioning engine weights theta amp D h0 adv lab w)
  = outcome
      (bind (F_normalize engine theta amp h0)
         (fun h1 =>
            bind (linear engine theta amp m h1)
              (fun c => ret (mkCondVars h1 adv None None (Some c)))) w).
Proof.
  intros Hp Hm Hn Hl2 Hb.
  exact (AC_weight_loop_is_dead amp D m h0 adv lab Hp Hm Hn Hl2 Hb w).
Qed.

End Facts.

(** * The networks on concrete configurations

    The statements above, run with [zero_engine] on small batches. *)

Lemma zero_engine_pure : engine_pure zero_engine.
Proof. intros th amp o args s [] []. reflexivity. Qed.

Lemma zero_engine_sized : engine_sized zero_engine.
Proof. intros th amp o args s w. apply repeat_length. Qed.



Lemma Generator_attention_after_stage_2_witness :
  exists G,
    g_apply_attn (gen_cfg 32 "W/O" [2]) = true /\
    attn_g_loc (gen_cfg 32 "W/O" [2]) = [2] /\
    Generator_init (gen_cfg 32 "W/O" [2]) = Ok G /\
    attn_layout G = [false; false; true; false].
Proof.
  eexists. split; [reflexivity |]. split; [reflexivity |].
  split; [reflexivity |].
  apply (Generator_attention_after_stage_2 (gen_cfg 32 "W/O" [2]) _
           eq_refl eq_refl eq_refl).
Defined.







(** MD on a batch of two with ten classes: the scores returned are entries
    (0, 3) and (1, 7) of what the adversarial head produced. *)
Lemma Discriminator_MD_batch_of_two :
  exists D h0 a out,
    Discriminator_init (disc_cfg "MD" "W/O" 10 false) = Ok D /\
    Discriminator_adv_head zero_engine tt false D h0 tt = Ok (a, tt) /\
    shape a = [2; 10] /\
    Discriminator_forward zero_engine zero_weights tt D
      (zeros [2; 3; 32; 32]) [3%Z; 7%Z] false false tt
    = Ok (out, tt) /\
    shape (adv_output out) = [2] /\
    nth 0 (data (adv_output out)) 0%R = entry2 a 0 3 /\
    nth 1 (data (adv_output out)) 0%R = entry2 a 1 7.
Proof.
  assert (Hin : Forall (fun l => wrap_index 10 l <> None) [3%Z; 7%Z])
    by (repeat constructor; discriminate).
  destruct (Discriminator_forward_MD unit unit zero_engine zero_weights tt
              (disc_cfg "MD" "W/O" 10 false) _ (zeros [2; 3; 32; 32])
              [3%Z; 7%Z] false false 2 32 32 zero_engine_sized eq_refl
              eq_refl eq_refl ltac:(lia) ltac:(lia) ltac:(lia)
              ltac:(cbn; lia) eq_refl Hin tt)
    as (h0 & w1 & a & w2 & out & E1 & E2 & Ha & E & Hh & Hs & Hv).
  destruct w1, w2. eexists. exists h0, a, out.
  split; [reflexivity |]. split; [exact E2 |]. split; [exact Ha |].
  split; [exact E |]. split; [exact Hs |].
  split; apply Hv; solve [lia | reflexivity].
Qed.

(** * Further properties on concrete configurations *)


Lemma Generator_stage_sequence_witness :
  exists G,
    Generator_init (gen_cfg 32 "W/O" [1; 3; 7]) = Ok G /\
    attn_layout G = [false; true; false; false; true] /\
    g_attn_channels G = [256; 64].
Proof.
  eexists. split; [reflexivity |].
  pose proof (Generator_stage_sequence (gen_cfg 32 "W/O" [1; 3; 7]) _ eq_refl)
    as H.
  cbv zeta in H. split; [exact (proj1 H) | exact (proj1 (proj2 H))].
Defined.

Lemma Discriminator_stage_sequence_witness :
  exists D,
    Discriminator_init (disc_cfg "W/O" "W/O" 10 false) = Ok D /\
    d_attn_layout D = [false; true; false; false] /\
    d_attn_channels D = [64].
Proof.
  eexists. split; [reflexivity |].
  pose proof (Discriminator_stage_sequence (disc_cfg "W/O" "W/O" 10 false) _
                eq_refl) as H.
  cbv zeta in H. split; [exact (proj1 H) | exact (proj1 (proj2 H))].
Defined.

Lemma Discriminator_heads_present_witness :
  exists D,
    Discriminator_init (disc_cfg "2C" "TAC" 10 true) = Ok D /\
    is_some (linear2 D) = true /\ is_some (embedding D) = true /\
    is_some (linear_mi D) = true /\ is_some (embedding_mi D) = true /\
    is_some (bn1 D) = false.
Proof.
  eexists. split; [reflexivity |].
  pose proof (Discriminator_heads_present (disc_cfg "2C" "TAC" 10 true) _
                eq_refl) as H.
  cbv zeta in H. destruct H as (H1 & H2 & H3 & H4 & H5 & _).
  repeat split; assumption.
Defined.

Lemma Generator_forward_engine_errors_only_witness :
  exists G,
    Generator_init (gen_cfg 32 "cBN" [2]) = Ok G /\
    Generator_forward zero_engine tt G (zeros [2; 7]) [3%Z; 7%Z] false tt
    = Raise RuntimeError /\
    (RuntimeError = RuntimeError \/ RuntimeError = IndexError).
Proof.
  eexists. split; [reflexivity |]. split; [reflexivity |].
  apply (Generator_forward_engine_errors_only unit unit zero_engine tt
           (gen_cfg 32 "cBN" [2]) _ (zeros [2; 7]) [3%Z; 7%Z] false tt
           RuntimeError eq_refl eq_refl).
Defined.

Lemma Generator_forward_ignores_label_witness :
  exists G,
    Generator_init (gen_cfg 32 "W/O" [2]) = Ok G /\
    g_cond_mtd (gen_cfg 32 "W/O" [2]) = "W/O" /\
    Generator_forward zero_engine tt G (zeros [2; 80]) [0%Z; 1%Z] false tt
    = Generator_forward zero_engine tt G (zeros [2; 80]) [99%Z] false tt.
Proof.
  eexists. split; [reflexivity |]. split; [reflexivity |].
  apply (Generator_forward_ignores_label unit unit zero_engine tt
           (gen_cfg 32 "W/O" [2]) _ (zeros [2; 80]) [0%Z; 1%Z] [99%Z] false
           tt eq_refl eq_refl).
Defined.

Lemma Generator_forward_latent_width_witness :
  exists G,
    Generator_init (gen_cfg 32 "W/O" [2]) = Ok G /\
    shape (zeros [2; 128]) = [2; 128] /\
    128 <> z_dim (gen_cfg 32 "W/O" [2]) /\
    Generator_forward zero_engine tt G (zeros [2; 128]) [0%Z; 1%Z] false tt
    = Raise RuntimeError.
Proof.
  assert (Hne : 128 <> z_dim (gen_cfg 32 "W/O" [2]))
    by (cbn; intros H; discriminate H).
  eexists. split; [reflexivity |]. split; [reflexivity |].
  split; [exact Hne |].
  apply (Generator_forward_latent_width unit unit zero_engine tt
           (gen_cfg 32 "W/O" [2]) _ (zeros [2; 128]) [0%Z; 1%Z] false 2 128
           tt eq_refl eq_refl Hne).
Defined.

Lemma GenBlock_forward_doubles_witness :
  exists blk out w',
    GenBlock_init 512 256 "cBN" 10 0 = Ok blk /\
    shape (zeros [2; 512; 4; 4]) = [2; 512; 4; 4] /\
    labels_ok 10 2 [3%Z; 7%Z] /\
    GenBlock_forward zero_engine tt false blk (zeros [2; 512; 4; 4])
      [3%Z; 7%Z] tt = Ok (out, w') /\
    shape out = [2; 256; 8; 8].
Proof.
  destruct (GenBlock_forward_doubles unit unit zero_engine tt false 512 256
              10 0 "cBN" _ (zeros [2; 512; 4; 4]) [3%Z; 7%Z] 2 4 4 tt
              eq_refl eq_refl ltac:(lia) ltac:(lia) (conj eq_refl eq_refl))
    as (out & w' & E & Hs).
  eexists. exists out, w'. split; [reflexivity |].
  split; [reflexivity |]. split; [split; reflexivity |].
  split; [exact E | exact Hs].
Defined.



Lemma Discriminator_bundle_without_class_outputs_witness :
  exists D out w',
    Discriminator_init (disc_cfg "MH" "ADC" 10 true) = Ok D /\
    shape (zeros [2; 3; 32; 32]) = [2; 3; 32; 32] /\
    Discriminator_forward zero_engine zero_weights tt D
      (zeros [2; 3; 32; 32]) [3%Z; 7%Z] false false tt = Ok (out, w') /\
    cls_output out = None /\ mi_cls_output out = None /\
    embed out = None /\ proxy out = None.
Proof.
  destruct (Discriminator_forward_plain unit unit zero_engine zero_weights tt
              (disc_cfg "MH" "ADC" 10 true) _ (zeros [2; 3; 32; 32])
              [3%Z; 7%Z] false false 2 32 32 eq_refl (or_intror eq_refl)
              eq_refl ltac:(lia) ltac:(lia) tt) as (out & w' & E & _).
  destruct (Discriminator_bundle_without_class_outputs unit unit zero_engine
              zero_weights tt (disc_cfg "MH" "ADC" 10 true) _
              (zeros [2; 3; 32; 32]) [3%Z; 7%Z] false false 2 32 32 tt w' out
              eq_refl eq_refl E)
    as (_ & _ & H1 & H2 & H3 & _ & _ & H6).
  eexists. exists out, w'. split; [reflexivity |].
  split; [reflexivity |]. split; [exact E |].
  repeat split; assumption.
Defined.

Lemma Discriminator_forward_scores_witness :
  exists D out w',
    Discriminator_init (disc_cfg "MH" "W/O" 10 false) = Ok D /\
    Discriminator_forward zero_engine zero_weights tt D
      (zeros [2; 3; 32; 32]) [3%Z; 7%Z] false false tt = Ok (out, w') /\
    shape (h out) = [2; 512] /\
    shape (adv_output out) = [2; 11].
Proof.
  assert (Hn : 1 <= d_num_classes (disc_cfg "MH" "W/O" 10 false))
    by (cbn; lia).
  destruct (Discriminator_forward_scores unit unit zero_engine zero_weights
              tt (disc_cfg "MH" "W/O" 10 false) _ (zeros [2; 3; 32; 32])
              [3%Z; 7%Z] false false 2 32 32 tt eq_refl
              (or_intror (conj eq_refl Hn)) eq_refl
              ltac:(lia) ltac:(lia) ltac:(lia))
    as (out & w' & E & Hh & Ha).
  eexists. exists out, w'. split; [reflexivity |].
  split; [exact E |]. split; [exact Hh | exact Ha].
Defined.

Lemma Discriminator_MD_gather_witness :
  exists D a out w2,
    Discriminator_init (disc_cfg "MD" "W/O" 10 false) = Ok D /\
    engine_sized zero_engine /\
    shape a = [2; 10] /\
    Discriminator_forward zero_engine zero_weights tt D
      (zeros [2; 3; 32; 32]) [3%Z; (-1)%Z] false false tt = Ok (out, w2) /\
    shape (adv_output out) = [2] /\
    nth 0 (data (adv_output out)) 0%R = entry2 a 0 3 /\
    nth 1 (data (adv_output out)) 0%R = entry2 a 1 9.
Proof.
  assert (Hin : Forall (fun l => wrap_index 10 l <> None) [3%Z; (-1)%Z])
    by (repeat constructor; discriminate).
  destruct (Discriminator_MD_gather unit unit zero_engine zero_weights tt
              (disc_cfg "MD" "W/O" 10 false) _ (zeros [2; 3; 32; 32])
              [3%Z; (-1)%Z] false false 2 32 32 tt zero_engine_sized eq_refl
              eq_refl eq_refl ltac:(lia) ltac:(lia) ltac:(lia)
              ltac:(cbn; lia) eq_refl Hin)
    as (h0 & w1 & a & w2 & out & _ & _ & Ha & E & Hs & Hv).
  eexists. exists a, out, w2. split; [reflexivity |].
  split; [exact zero_engine_sized |]. split; [exact Ha |].
  split; [exact E |]. split; [exact Hs |].
  split; apply Hv; solve [lia | reflexivity].
Defined.




Lemma AC_weight_normalisation_is_discarded_witness :
  exists D m,
    Discriminator_init (disc_cfg "AC" "W/O" 10 true) = Ok D /\
    engine_pure zero_engine /\
    D_d_cond_mtd D = "AC" /\ D_normalize_d_embed D = true /\
    linear2 D = Some m /\ bias m = false /\
    outcome (class_conditioning zero_engine zero_weights tt false D
               (zeros [2; 512]) (zeros [2]) [3%Z; 7%Z] tt)
    = outcome
        (bind (F_normalize zero_engine tt false (zeros [2; 512]))
           (fun h1 =>
              bind (linear zero_engine tt false m h1)
                (fun c =>
                   ret (mkCondVars h1 (zeros [2]) None None (Some c)))) tt).
Proof.
  eexists. eexists. split; [reflexivity |].
  split; [exact zero_engine_pure |]. split; [reflexivity |].
  split; [reflexivity |]. split; [reflexivity |]. split; [reflexivity |].
  apply AC_weight_normalisation_is_discarded;
    [exact zero_engine_pure | reflexivity ..].
Defined.
